(** * shell_gpt: the command-line entry point [sgpt/app.py]

    A shallow embedding of [main] and [get_completion] of [sgpt/app.py].
    The collaborators that [main] calls ([make_prompt], [config],
    [OpenAIClient], [typer], [os], [subprocess]) live in other modules: the
    pure ones are section variables, the effectful ones are recorded as
    events, and the state owned by [OpenAIClient] (chat sessions, completion
    cache) is threaded explicitly. *)

From Stdlib Require Import Ascii PrimFloat Bool.
From Stdlib Require String.
From stdpp Require Import base option list strings gmap.

Set Default Proof Using "Type".

(** ** Python strings *)

Module Py.

(** The newline character, written ["\n"] in the source. *)
Definition nl : string := String (ascii_of_nat 10) EmptyString.

(** [s.endswith(suffix)] *)
Fixpoint endswith (s suffix : string) : bool :=
  String.eqb s suffix ||
  match s with
  | EmptyString => false
  | String _ t => endswith t suffix
  end.

(** [needle in s] *)
Fixpoint contains (s needle : string) : bool :=
  String.prefix needle s ||
  match s with
  | EmptyString => false
  | String _ t => contains t needle
  end.

(** [sep.join(parts)] *)
Definition join (sep : string) (parts : list string) : string :=
  String.concat sep parts.

(** Truth value of a [str]: the empty string is false. *)
Definition truthy (s : string) : bool := negb (String.eqb s "").

(** Truth value of an optional [str] option of the command line: [None]
    (option not given) and the empty string are false. *)
Definition given (o : option string) : bool :=
  match o with
  | Some s => truthy s
  | None => false
  end.

End Py.

Definition float := PrimFloat.float.

(** ** Data *)

(** A chat message, [{"role": ..., "content": ...}] in the source. *)
Record Message := { role : string; content : string }.

(** The exceptions that can leave [main].  [MissingParameter] and
    [BadParameter] are click's; [UpstreamError] stands for whatever the
    completion iterator raises while it is drained. *)
Inductive Exception :=
| MissingParameter (param_hint param_type : string)
| BadParameter (message : string)
| SessionNotFound (chat_id : string)
| IndexError
| UpstreamError (detail : string).

(** State owned by [OpenAIClient]: the chat sessions of its [chat_cache],
    its completion cache, and the log of what it did with the cache and
    with the remote service. *)
Inductive Wire :=
| CacheLookup (key : string)
| CacheStore (key value : string)
| Transport (messages : list Message) (model : string)
            (temperature top_probability : float).

Record Backend := {
  sessions : gmap string (list Message);
  cache : gmap string string;
  wire : list Wire
}.

(** The iterator returned by [client.get_completion]: a finite, forward-only
    sequence of text chunks.  Each [Yield] carries the state of the backend
    at the moment the chunk is handed over. *)
Inductive Stream :=
| Stop (b : Backend)
| Fail (detail : string) (b : Backend)
| Yield (word : string) (b : Backend) (rest : Stream).

(** An iterator that has not started yet: a Python generator runs nothing
    until its first chunk is asked for, and then starts from the backend as
    it is at that moment. *)
Definition Completion : Type := Backend -> Stream.

(** [OpenAIClient(api_host, api_key).get_completion(messages, model,
    temperature, top_probability, caching, chat_id)] *)
Definition Client : Type :=
  string -> string -> list Message -> string -> float -> float -> bool ->
  option string -> Completion.

(** The calls [main] makes to its collaborators, in the order made. *)
Inductive Event :=
| EchoChatIds
| EchoChatMessages (chat_id : string)
| GetEditedPrompt
| ChatExists (chat_id : string)
| ChatGetMessages (chat_id : string)
| MakePromptChatMode (prompt : string) (is_shell_chat is_code_chat : bool)
| MakePromptInitial (prompt : string) (shell code : bool)
| ConfigGet (key : string)
| ClientGetCompletion (messages : list Message) (model : string)
    (temperature top_probability : float) (caching : bool)
    (chat_id : option string)
| Next (word : string)
| Secho (message : option string) (nl : bool)
| OsSystem (command : string)
| SubprocessRun (argv : list string).

(** The command line of [main] after click has parsed it. *)
Record Args := {
  prompt : list string;
  temperature : float;
  top_probability : float;
  chat : option string;
  show_chat : option string;
  list_chat : bool;
  shell : bool;
  code : bool;
  demo : bool;
  editor : bool;
  no_cache : bool
}.

(** ** Effects: events written, backend threaded, exceptions raised *)

Inductive Result (A : Type) :=
| Val (a : A)
| Exc (e : Exception).
Arguments Val {A} a.
Arguments Exc {A} e.

Record Run (A : Type) := MkRun {
  events : list Event;
  final : Backend;
  result : Result A
}.
Arguments MkRun {A} events final result.
Arguments events {A} r.
Arguments final {A} r.
Arguments result {A} r.

Definition M (A : Type) : Type := Backend -> Run A.

Definition ret {A} (a : A) : M A := fun b => MkRun [] b (Val a).

Definition raise {A} (e : Exception) : M A := fun b => MkRun [] b (Exc e).

Definition bind {A B} (m : M A) (k : A -> M B) : M B := fun b =>
  let r := m b in
  match result r with
  | Val a =>
      let r' := k a (final r) in
      MkRun (events r ++ events r') (final r') (result r')
  | Exc e => MkRun (events r) (final r) (Exc e)
  end.

(** A call whose only trace in the model is that it was made. *)
Definition call (ev : Event) : M unit := fun b => MkRun [ev] b (Val tt).

(** The backend as it is now. *)
Definition get_backend : M Backend := fun b => MkRun [] b (Val b).

(** The backend after the client worked on it. *)
Definition put_backend (b' : Backend) : M unit := fun _ => MkRun [] b' (Val tt).

Declare Scope py_scope.
Delimit Scope py_scope with py.
Notation "x <- m ;; k" := (bind m (fun x => k))
  (at level 100, m at next level, right associativity) : py_scope.
Notation "m ;; k" := (bind m (fun _ => k))
  (at level 100, right associativity) : py_scope.

(** ** The chat cache *)

Module chat_cache.

(** Modelled from the spec: [OpenAIClient.chat_cache.exists] (the chat
    cache module is not among the sources).  True iff a session with at
    least one stored message exists under [chat_id]. *)
Definition exists_ (chat_id : string) (b : Backend) : bool :=
  match sessions b !! chat_id with
  | Some (_ :: _) => true
  | _ => false
  end.

(** Modelled from the spec: [OpenAIClient.chat_cache.get_messages] (not
    among the sources).  The stored history in order, one text per
    message; [None] stands for [SessionNotFound]. *)
Definition get_messages (chat_id : string) (b : Backend) : option (list string) :=
  map content <$> sessions b !! chat_id.

(** Modelled from the spec: [append(id, role, content)] of the session
    store (not among the sources).  Adds one message at the end and
    creates the session when [chat_id] is new. *)
Definition append (chat_id : string) (m : Message) (b : Backend) : Backend :=
  {| sessions := <[chat_id := default [] (sessions b !! chat_id) ++ [m]]> (sessions b);
     cache := cache b;
     wire := wire b |}.

(** Any number of later appends, to this session or to others. *)
Definition extend (followups : list (string * Message)) (b : Backend) : Backend :=
  foldl (fun b f => append (fst f) (snd f) b) b followups.

End chat_cache.

(** The grammar markers that end a composed initial prompt. *)
Definition shell_marker : string := "###" +:+ Py.nl +:+ "Command:".
Definition code_marker : string := "###" +:+ Py.nl +:+ "Code:".

(** ** [sgpt/app.py] *)

Section App.

(** [make_prompt.initial] and [make_prompt.chat_mode] *)
Variable make_prompt_initial : string -> bool -> bool -> string.
Variable make_prompt_chat_mode : string -> bool -> bool -> string.
(** [config.get] *)
Variable config_get : string -> string.
(** What [get_edited_prompt()] brings back from the editor. *)
Variable edited_prompt : string.
(** [OpenAIClient(api_host, api_key).get_completion] *)
Variable client_get_completion : Client.

Open Scope py_scope.

(** Lines 30-47.  The client hands back an iterator that has not started:
    its body runs when the loop of [main] asks for the first chunk. *)
Definition get_completion (messages : list Message) (temperature top_p : float)
    (caching : bool) (chat : option string) : M Completion :=
  call (ConfigGet "OPENAI_API_HOST") ;;
  let api_host := config_get "OPENAI_API_HOST" in
  call (ConfigGet "OPENAI_API_KEY") ;;
  let api_key := config_get "OPENAI_API_KEY" in
  call (ClientGetCompletion messages "gpt-3.5-turbo" temperature top_p caching chat) ;;
  ret (client_get_completion api_host api_key
         messages "gpt-3.5-turbo" temperature top_p caching chat).

(** Lines 133-136: the loop that prints each chunk and accumulates it. *)
Fixpoint for_word_in (completion : Stream) (full_completion : string) : M string :=
  match completion with
  | Stop b => put_backend b ;; ret full_completion
  | Fail detail b => put_backend b ;; raise (UpstreamError detail)
  | Yield word b rest =>
      put_backend b ;;
      call (Next word) ;;
      call (Secho (Some word) false) ;;
      for_word_in rest (full_completion +:+ word)
  end.

(** Lines 78-144. *)
Definition main (a : Args) : M unit :=
  let collectedPrompt := Py.join " " (prompt a) in
  if list_chat a then
    call EchoChatIds
  else if Py.given (show_chat a) then
    call (EchoChatMessages (default "" (show_chat a)))
  else if negb (Py.truthy collectedPrompt) && negb (editor a) then
    raise (MissingParameter "PROMPT" "string")
  else
    collectedPrompt <-
      (if editor a then call GetEditedPrompt ;; ret edited_prompt
       else ret collectedPrompt) ;;
    collectedPrompt <-
      (follow <-
         (if Py.given (chat a) then
            call (ChatExists (default "" (chat a))) ;;
            b <- get_backend ;;
            ret (chat_cache.exists_ (default "" (chat a)) b)
          else ret false) ;;
       if follow : bool then
         let chat_id := default "" (chat a) in
         call (ChatGetMessages chat_id) ;;
         b <- get_backend ;;
         chat_history <-
           match chat_cache.get_messages chat_id b with
           | Some h => ret h
           | None => raise (SessionNotFound chat_id)
           end ;;
         first <-
           match chat_history with
           | m :: _ => ret m
           | [] => raise IndexError
           end ;;
         let is_shell_chat := Py.endswith first shell_marker in
         let is_code_chat := Py.endswith first code_marker in
         if is_shell_chat && code a then
           raise (BadParameter
             ("Chat id:" +:+ chat_id +:+
              " was initiated as shell assistant, can be used with --shell only"))
         else if is_code_chat && shell a then
           raise (BadParameter
             ("Chat id:" +:+ chat_id +:+
              " was initiated as code assistant, can be used with --code only"))
         else
           call (MakePromptChatMode collectedPrompt is_shell_chat is_code_chat) ;;
           ret (make_prompt_chat_mode collectedPrompt is_shell_chat is_code_chat)
       else
         call (MakePromptInitial collectedPrompt (shell a) (code a)) ;;
         ret (make_prompt_initial collectedPrompt (shell a) (code a))) ;;
    completion <-
      get_completion [{| role := "user"; content := collectedPrompt |}]
        (temperature a) (top_probability a) (negb (no_cache a)) (chat a) ;;
    b <- get_backend ;;
    full_completion <- for_word_in (completion b) "" ;;
    call (Secho None true) ;;
    if negb (code a) && shell a then
      if negb (demo a) then
        if Py.contains collectedPrompt "only PowerShell commands" then
          call (SubprocessRun ["powershell"; "-Command"; full_completion])
        else
          call (OsSystem full_completion)
      else ret tt
    else ret tt.

(** The three blocks that follow the guards of [main], each under a name
    of its own so that lemmas can speak about them; [main_blocks] below
    shows that [main] is their sequence. *)

(** Lines 103-104. *)
Definition collected_prompt (a : Args) : M string :=
  if editor a then call GetEditedPrompt ;; ret edited_prompt
  else ret (Py.join " " (prompt a)).

(** Lines 106-123. *)
Definition composed_prompt (a : Args) (collectedPrompt : string) : M string :=
  follow <-
    (if Py.given (chat a) then
       call (ChatExists (default "" (chat a))) ;;
       b <- get_backend ;;
       ret (chat_cache.exists_ (default "" (chat a)) b)
     else ret false) ;;
  if follow : bool then
    let chat_id := default "" (chat a) in
    call (ChatGetMessages chat_id) ;;
    b <- get_backend ;;
    chat_history <-
      match chat_cache.get_messages chat_id b with
      | Some h => ret h
      | None => raise (SessionNotFound chat_id)
      end ;;
    first <-
      match chat_history with
      | m :: _ => ret m
      | [] => raise IndexError
      end ;;
    let is_shell_chat := Py.endswith first shell_marker in
    let is_code_chat := Py.endswith first code_marker in
    if is_shell_chat && code a then
      raise (BadParameter
        ("Chat id:" +:+ chat_id +:+
         " was initiated as shell assistant, can be used with --shell only"))
    else if is_code_chat && shell a then
      raise (BadParameter
        ("Chat id:" +:+ chat_id +:+
         " was initiated as code assistant, can be used with --code only"))
    else
      call (MakePromptChatMode collectedPrompt is_shell_chat is_code_chat) ;;
      ret (make_prompt_chat_mode collectedPrompt is_shell_chat is_code_chat)
  else
    call (MakePromptInitial collectedPrompt (shell a) (code a)) ;;
    ret (make_prompt_initial collectedPrompt (shell a) (code a)).

(** Lines 125-144. *)
Definition completed (a : Args) (collectedPrompt : string) : M unit :=
  completion <-
    get_completion [{| role := "user"; content := collectedPrompt |}]
      (temperature a) (top_probability a) (negb (no_cache a)) (chat a) ;;
  b <- get_backend ;;
  full_completion <- for_word_in (completion b) "" ;;
  call (Secho None true) ;;
  if negb (code a) && shell a then
    if negb (demo a) then
      if Py.contains collectedPrompt "only PowerShell commands" then
        call (SubprocessRun ["powershell"; "-Command"; full_completion])
      else
        call (OsSystem full_completion)
    else ret tt
  else ret tt.

(** Names for what the blocks work with. *)

(** The prompt the composer receives. *)
Definition raw_prompt (a : Args) : string :=
  if editor a then edited_prompt else Py.join " " (prompt a).

(** The condition of line 106. *)
Definition follows_up (a : Args) (b : Backend) : bool :=
  Py.given (chat a) && chat_cache.exists_ (default "" (chat a)) b.

(** The two booleans of lines 108-109 for the session that is followed. *)
Definition session_flags (a : Args) (b : Backend) : bool * bool :=
  match sessions b !! default "" (chat a) with
  | Some (first :: _) =>
      (Py.endswith (content first) shell_marker,
       Py.endswith (content first) code_marker)
  | _ => (false, false)
  end.

(** The request follows a session and one of the guards of lines 110-117
    fires. *)
Definition refused (a : Args) (b : Backend) : bool :=
  follows_up a b &&
  ((fst (session_flags a b) && code a) || (snd (session_flags a b) && shell a)).

(** The prompt that lines 119-123 compose. *)
Definition composed_text (a : Args) (b : Backend) : string :=
  if follows_up a b
  then make_prompt_chat_mode (raw_prompt a)
         (fst (session_flags a b)) (snd (session_flags a b))
  else make_prompt_initial (raw_prompt a) (shell a) (code a).

(** The calls made before the client is called (lines 103-123). *)
Definition prelude (a : Args) (b : Backend) : list Event :=
  (if editor a then [GetEditedPrompt] else []) ++
  (if Py.given (chat a) then [ChatExists (default "" (chat a))] else []) ++
  (if follows_up a b then
     ChatGetMessages (default "" (chat a)) ::
     (if refused a b then []
      else [MakePromptChatMode (raw_prompt a)
              (fst (session_flags a b)) (snd (session_flags a b))])
   else [MakePromptInitial (raw_prompt a) (shell a) (code a)]).

(** The iterator that line 134 starts, for the composed prompt [p]. *)
Definition started (a : Args) (p : string) (b : Backend) : Stream :=
  client_get_completion (config_get "OPENAI_API_HOST") (config_get "OPENAI_API_KEY")
    [{| role := "user"; content := p |}] "gpt-3.5-turbo"
    (temperature a) (top_probability a) (negb (no_cache a)) (chat a) b.

End App.

(** The text of the [BadParameter] of lines 111-117. *)
Definition conflict_message (chat_id : string) (is_shell_chat : bool) : string :=
  "Chat id:" +:+ chat_id +:+
  (if is_shell_chat
   then " was initiated as shell assistant, can be used with --shell only"
   else " was initiated as code assistant, can be used with --code only").

(** The calls of lines 139-144, for the composed prompt [p] and the
    accumulated completion [text]. *)
Definition execution (a : Args) (p text : string) : list Event :=
  if negb (code a) && shell a then
    if negb (demo a) then
      if Py.contains p "only PowerShell commands"
      then [SubprocessRun ["powershell"; "-Command"; text]]
      else [OsSystem text]
    else []
  else [].

(** ** Reading a run *)

(** The chunks of a stream in the order produced, whether it failed, and
    the backend it leaves behind. *)
Fixpoint words (s : Stream) : list string :=
  match s with
  | Stop _ | Fail _ _ => []
  | Yield word _ rest => word :: words rest
  end.

Fixpoint failure (s : Stream) : option string :=
  match s with
  | Stop _ => None
  | Fail detail _ => Some detail
  | Yield _ _ rest => failure rest
  end.

Fixpoint last_backend (s : Stream) : Backend :=
  match s with
  | Stop b | Fail _ b => b
  | Yield _ _ rest => last_backend rest
  end.

(** What the loop of [main] does with one chunk. *)
Definition forwarded (word : string) : list Event :=
  [Next word; Secho (Some word) false].

Definition is_client_call (ev : Event) : bool :=
  match ev with
  | ClientGetCompletion _ _ _ _ _ _ => true
  | _ => false
  end.

Definition is_execution (ev : Event) : bool :=
  match ev with
  | OsSystem _ | SubprocessRun _ => true
  | _ => false
  end.

Definition is_chat_mode_call (ev : Event) : bool :=
  match ev with
  | MakePromptChatMode _ _ _ => true
  | _ => false
  end.

Definition is_initial_call (ev : Event) : bool :=
  match ev with
  | MakePromptInitial _ _ _ => true
  | _ => false
  end.

Definition is_mode_conflict {A} (r : Result A) : bool :=
  match r with
  | Exc (BadParameter _) => true
  | _ => false
  end.

(** The messages handed to the client, when the run got that far. *)
Fixpoint sent_messages (evs : list Event) : option (list Message) :=
  match evs with
  | [] => None
  | ClientGetCompletion messages _ _ _ _ _ :: _ => Some messages
  | _ :: evs => sent_messages evs
  end.

(** A request that reaches line 106: neither reporting path was taken and
    there is a prompt, typed or to be edited. *)
Definition asks_completion (a : Args) : bool :=
  negb (list_chat a) && negb (Py.given (show_chat a)) &&
  (Py.truthy (Py.join " " (prompt a)) || editor a).

(** The same command line with other grammar flags. *)
Definition with_grammar (a : Args) (shell' code' : bool) : Args :=
  {| prompt := prompt a; temperature := temperature a;
     top_probability := top_probability a; chat := chat a;
     show_chat := show_chat a; list_chat := list_chat a;
     shell := shell'; code := code'; demo := demo a; editor := editor a;
     no_cache := no_cache a |}.

(** ** Session modes, in the words of the specification *)

Inductive Mode := ShellMode | CodeMode | PlainMode.

(** The mode that the two booleans of lines 108-109 stand for. *)
Definition mode_of (is_shell_chat is_code_chat : bool) : Mode :=
  if is_shell_chat then ShellMode
  else if is_code_chat then CodeMode
  else PlainMode.

Definition is_shell_mode (m : Mode) : bool :=
  match m with ShellMode => true | _ => false end.

Definition is_code_mode (m : Mode) : bool :=
  match m with CodeMode => true | _ => false end.

(** Lines 107-109 read as a function of the store: the session mode that
    [main] recovers for [chat_id]. *)
Definition infer_mode (chat_id : string) (b : Backend) : option Mode :=
  match chat_cache.get_messages chat_id b with
  | Some (first :: _) =>
      Some (mode_of (Py.endswith first shell_marker) (Py.endswith first code_marker))
  | _ => None
  end.

(** The specification's reading of a conflict: a requested grammar that is
    not the grammar of the session. *)
Definition requested_conflicts (m : Mode) (shell' code' : bool) : bool :=
  match m with
  | ShellMode => code'
  | CodeMode => shell'
  | PlainMode => shell' || code'
  end.

(** The conflicts that lines 110-117 reject. *)
Definition rejected (m : Mode) (shell' code' : bool) : bool :=
  match m with
  | ShellMode => code'
  | CodeMode => shell'
  | PlainMode => false
  end.

(** ** The completion gateway *)

Section Gateway.

(** [compute_fingerprint] of the completion cache and the remote
    transport: the chunks it delivers and, when it breaks, the error that
    ends them. *)
Variable compute_fingerprint : list Message -> string -> float -> float -> string.
Variable transport :
  list Message -> string -> float -> float -> list string * option string.

Definition log (w : Wire) (b : Backend) : Backend :=
  {| sessions := sessions b; cache := cache b; wire := wire b ++ [w] |}.

Definition cache_store (key value : string) (b : Backend) : Backend :=
  {| sessions := sessions b;
     cache := <[key := value]> (cache b);
     wire := wire b ++ [CacheStore key value] |}.

(** Modelled from the spec: step 1 of the gateway (the client module is
    not among the sources).  The persisted history when a session id is
    supplied and the session exists, nothing otherwise. *)
Definition history (chat_id : option string) (b : Backend) : list Message :=
  if Py.given chat_id && chat_cache.exists_ (default "" chat_id) b
  then default [] (sessions b !! default "" chat_id)
  else [].

(** Modelled from the spec: the commit at the end of step 5 (client module
    not among the sources).  The user turn and then the assistant turn are
    appended to the session when a session id was supplied. *)
Definition record_exchange (chat_id : option string) (messages : list Message)
    (text : string) (b : Backend) : Backend :=
  if Py.given chat_id then
    chat_cache.append (default "" chat_id) {| role := "assistant"; content := text |}
      (foldl (fun b m => chat_cache.append (default "" chat_id) m b) b messages)
  else b.

(** Chunks are handed over one by one and accumulated on the side;
    [finish] receives the accumulated text once the last one is out. *)
Fixpoint stream_chunks (chunks : list string) (b : Backend)
    (finish : string -> Stream) (accumulated : string) : Stream :=
  match chunks with
  | [] => finish accumulated
  | c :: chunks => Yield c b (stream_chunks chunks b finish (accumulated +:+ c))
  end.

(** Modelled from the spec: [OpenAIClient.get_completion], steps 3 to 6 of
    the completion gateway (the client module is not among the sources).
    The outbound list is the persisted history plus the new turn; with
    caching on it is fingerprinted and looked up, a hit is returned as a
    one-shot sequence; otherwise the transport is called, and once its
    chunks are all out the text is stored in the cache (caching on) and
    the exchange appended to the session. *)
Definition gateway : Client :=
  fun api_host api_key messages model temperature top_probability caching chat_id b =>
  let outbound := history chat_id b ++ messages in
  let key := compute_fingerprint outbound model temperature top_probability in
  let remote (b : Backend) : Stream :=
    let b := log (Transport outbound model temperature top_probability) b in
    let '(chunks, broken) := transport outbound model temperature top_probability in
    stream_chunks chunks b
      (fun text =>
         match broken with
         | Some detail => Fail detail b
         | None =>
             Stop (record_exchange chat_id messages text
                     (if caching then cache_store key text b else b))
         end) ""
  in
  if caching then
    let b := log (CacheLookup key) b in
    match cache b !! key with
    | Some value => Yield value b (Stop (record_exchange chat_id messages value b))
    | None => remote b
    end
  else remote b.

End Gateway.

Definition is_cache_access (w : Wire) : bool :=
  match w with
  | CacheLookup _ | CacheStore _ _ => true
  | Transport _ _ _ _ => false
  end.

(** What a wire entry was computed from, given the fingerprint function:
    [about fp outbound model t p w] says that [w] is a lookup or a store
    under the fingerprint of that request, or the transport of it. *)
Definition about (fp : list Message -> string -> float -> float -> string)
    (outbound : list Message) (model : string) (t p : float) (w : Wire) : Prop :=
  match w with
  | CacheLookup key | CacheStore key _ => key = fp outbound model t p
  | Transport messages model' t' p' =>
      messages = outbound /\ model' = model /\ t' = t /\ p' = p
  end.

(** ** Stand-ins for running examples *)

Module Sample.

(** Modelled from the spec: [make_prompt.initial] (module not among the
    sources).  The raw text, and for the shell or code grammar the marker
    of that grammar at the end. *)
Definition initial (prompt : string) (shell code : bool) : string :=
  if shell then "Shell: " +:+ prompt +:+ shell_marker
  else if code then "Code: " +:+ prompt +:+ code_marker
  else prompt.

(** Modelled from the spec: [make_prompt.chat_mode] (module not among the
    sources).  The follow-up wrapped in the grammar of the session. *)
Definition chat_mode (prompt : string) (is_shell_chat is_code_chat : bool) : string :=
  if is_shell_chat then prompt +:+ shell_marker
  else if is_code_chat then prompt +:+ code_marker
  else prompt.

Definition config (key : string) : string := "value of " +:+ key.

Definition edited : string := "from the editor".

(** A remote that answers every request with the same two chunks. *)
Definition transport (messages : list Message) (model : string) (t p : float)
    : list string * option string :=
  (["ls"; " -la"], None).

(** A stand-in digest: the contents of the messages and the model. *)
Definition fingerprint (messages : list Message) (model : string) (t p : float) : string :=
  String.concat "|" (map content messages) +:+ "@" +:+ model.

Definition client : Client := gateway fingerprint transport.

Definition run (a : Args) : M unit := main initial chat_mode config edited client a.

Definition empty : Backend := {| sessions := ∅; cache := ∅; wire := [] |}.

Definition args (prompt : list string) (chat : option string) (shell code : bool) : Args :=
  {| prompt := prompt; temperature := 1%float; top_probability := 1%float;
     chat := chat; show_chat := None; list_chat := false;
     shell := shell; code := code; demo := false; editor := false;
     no_cache := false |}.

(** A backend holding one session [id] whose first message is [first]. *)
Definition one_session (id first : string) : Backend :=
  {| sessions := {[ id := [ {| role := "user"; content := first |} ] ]};
     cache := ∅; wire := [] |}.

(** Sessions [abc] started in shell, code and plain mode. *)
Definition shell_chat : Backend := one_session "abc" (initial "list files" true false).
Definition code_chat : Backend := one_session "abc" (initial "sort a list" false true).
Definition plain_chat : Backend := one_session "abc" "what is a monad".

(** [sgpt --no-cache --chat abc list files] *)
Definition uncached : Args :=
  {| prompt := ["list"; "files"]; temperature := 1%float; top_probability := 1%float;
     chat := Some "abc"; show_chat := None; list_chat := false;
     shell := false; code := false; demo := false; editor := false;
     no_cache := true |}.

End Sample.

(** ** Command lines used to compare runs *)

(** The same command line with other words for the prompt. *)
Definition with_prompt (a : Args) (words' : list string) : Args :=
  {| prompt := words'; temperature := temperature a;
     top_probability := top_probability a; chat := chat a;
     show_chat := show_chat a; list_chat := list_chat a;
     shell := shell a; code := code a; demo := demo a; editor := editor a;
     no_cache := no_cache a |}.


(** Lines 50-77: what click hands to [main] when only prompt words are
    given: both floats default to [1.0], [--chat] and [--show-chat] to
    [None], every flag to [False]. *)
Definition click_defaults (words' : list string) : Args :=
  {| prompt := words'; temperature := 1%float; top_probability := 1%float;
     chat := None; show_chat := None; list_chat := false;
     shell := false; code := false; demo := false; editor := false;
     no_cache := false |}.

Definition is_config_read (ev : Event) : bool :=
  match ev with
  | ConfigGet _ => true
  | _ => false
  end.

Definition is_chat_cache_read (ev : Event) : bool :=
  match ev with
  | ChatExists _ | ChatGetMessages _ => true
  | _ => false
  end.

(** The calls of a run that reached the client, from the client call on:
    the two reads of the configuration, the call, the chunks of the
    iterator [s] forwarded one by one and, when [s] ends without an error,
    the closing newline and the execution. *)
Definition client_part (a : Args) (p : string) (s : Stream) : list Event :=
  [ConfigGet "OPENAI_API_HOST"; ConfigGet "OPENAI_API_KEY";
   ClientGetCompletion [{| role := "user"; content := p |}] "gpt-3.5-turbo"
     (temperature a) (top_probability a) (negb (no_cache a)) (chat a)] ++
  concat (map forwarded (words s)) ++
  match failure s with
  | None => Secho None true :: execution a p (foldr String.append "" (words s))
  | Some _ => []
  end.

(** A remote that breaks after its first chunk, and a composer whose
    prompts ask for PowerShell. *)
Definition broken_client : Client :=
  gateway Sample.fingerprint (fun _ _ _ _ => (["ls"], Some "connection reset")).

Definition powershell_initial (prompt : string) (shell code : bool) : string :=
  "Provide only PowerShell commands for: " +:+ prompt.

(** [sgpt --list-chat --show-chat abc] and [sgpt --editor typed words] *)
Definition listing : Args :=
  {| prompt := []; temperature := 1%float; top_probability := 1%float;
     chat := None; show_chat := Some "abc"; list_chat := true;
     shell := false; code := false; demo := false; editor := false;
     no_cache := false |}.

Definition editing : Args :=
  {| prompt := ["typed"; "words"]; temperature := 1%float; top_probability := 1%float;
     chat := None; show_chat := None; list_chat := false;
     shell := false; code := false; demo := false; editor := true;
     no_cache := false |}.

(** * Facts *)

(** ** Strings *)

Lemma append_cons (c : ascii) (s t : string) : String c s +:+ t = String c (s +:+ t).
Proof. reflexivity. Qed.

Lemma append_assoc (s t u : string) : (s +:+ t) +:+ u = s +:+ (t +:+ u).
Proof.
  induction s as [|c s IH]; [reflexivity|].
  rewrite !append_cons, IH. reflexivity.
Qed.

Lemma append_empty_r (s : string) : s +:+ "" = s.
Proof.
  induction s as [|c s IH]; [reflexivity|].
  rewrite append_cons, IH. reflexivity.
Qed.

(** [endswith] is the suffix relation. *)
Lemma endswith_append (p suffix : string) :
  Py.endswith (p +:+ suffix) suffix = true.
Proof.
  induction p as [|c p IH].
  - change (Py.endswith suffix suffix = true).
    destruct suffix as [|c t]; cbn [Py.endswith]; [reflexivity|].
    rewrite String.eqb_refl. reflexivity.
  - rewrite append_cons. cbn [Py.endswith]. rewrite IH. apply orb_true_r.
Qed.

Lemma endswith_split (s suffix : string) :
  Py.endswith s suffix = true -> exists p, s = p +:+ suffix.
Proof.
  induction s as [|c s IH]; cbn [Py.endswith]; intros H.
  - destruct suffix; [exists ""; reflexivity | discriminate].
  - apply orb_true_iff in H as [H|H].
    + apply String.eqb_eq in H. exists "". rewrite H. reflexivity.
    + destruct (IH H) as [p ->]. exists (String c p). reflexivity.
Qed.

(** No text ends with both markers. *)
Lemma markers_exclusive (s : string) :
  Py.endswith s shell_marker = true -> Py.endswith s code_marker = false.
Proof.
  induction s as [|c s IH]; [discriminate|].
  cbn [Py.endswith].
  intros H. apply orb_true_iff in H. apply orb_false_iff.
  destruct H as [H|H].
  - apply String.eqb_eq in H. injection H as -> ->. split; reflexivity.
  - split.
    + destruct (String.eqb_spec (String c s) code_marker) as [E|]; [|reflexivity].
      injection E as -> ->. discriminate H.
    + apply IH, H.
Qed.

Lemma mode_of_shell (s : string) :
  mode_of (Py.endswith s shell_marker) (Py.endswith s code_marker) = ShellMode <->
  Py.endswith s shell_marker = true.
Proof.
  unfold mode_of.
  destruct (Py.endswith s shell_marker), (Py.endswith s code_marker); intuition congruence.
Qed.

Lemma mode_of_code (s : string) :
  mode_of (Py.endswith s shell_marker) (Py.endswith s code_marker) = CodeMode <->
  Py.endswith s code_marker = true.
Proof.
  unfold mode_of. pose proof (markers_exclusive s) as X.
  destruct (Py.endswith s shell_marker), (Py.endswith s code_marker); intuition congruence.
Qed.

Lemma mode_of_plain (s : string) :
  mode_of (Py.endswith s shell_marker) (Py.endswith s code_marker) = PlainMode <->
  Py.endswith s shell_marker = false /\ Py.endswith s code_marker = false.
Proof.
  unfold mode_of.
  destruct (Py.endswith s shell_marker), (Py.endswith s code_marker); intuition congruence.
Qed.

(** The guards of lines 110-117 reject exactly [rejected]. *)
Lemma guards_rejected (s : string) (shell' code' : bool) :
  (Py.endswith s shell_marker && code') ||
  (Py.endswith s code_marker && shell') =
  rejected (mode_of (Py.endswith s shell_marker) (Py.endswith s code_marker)) shell' code'.
Proof.
  unfold mode_of, rejected. pose proof (markers_exclusive s) as X.
  destruct (Py.endswith s shell_marker), (Py.endswith s code_marker),
    shell', code'; try reflexivity; discriminate X; reflexivity.
Qed.

(** ** The loop over the chunks *)

Lemma for_word_in_events (s : Stream) (acc : string) (b : Backend) :
  events (for_word_in s acc b) = concat (map forwarded (words s)).
Proof.
  revert acc b. induction s as [b'|d b'|w b' rest IH]; intros acc b; try reflexivity.
  cbn. rewrite IH. reflexivity.
Qed.

Lemma for_word_in_final (s : Stream) (acc : string) (b : Backend) :
  final (for_word_in s acc b) = last_backend s.
Proof.
  revert acc b. induction s as [b'|d b'|w b' rest IH]; intros acc b; try reflexivity.
  cbn. apply IH.
Qed.

Lemma for_word_in_result (s : Stream) (acc : string) (b : Backend) :
  result (for_word_in s acc b) =
  match failure s with
  | None => Val (acc +:+ foldr String.append "" (words s))
  | Some detail => Exc (UpstreamError detail)
  end.
Proof.
  revert acc b. induction s as [b'|d b'|w b' rest IH]; intros acc b.
  - cbn. rewrite append_empty_r. reflexivity.
  - reflexivity.
  - cbn. rewrite IH. destruct (failure rest); [reflexivity|].
    rewrite append_assoc. reflexivity.
Qed.

Lemma for_word_in_run (s : Stream) (acc : string) (b : Backend) :
  for_word_in s acc b =
  MkRun (concat (map forwarded (words s))) (last_backend s)
    match failure s with
    | None => Val (acc +:+ foldr String.append "" (words s))
    | Some detail => Exc (UpstreamError detail)
    end.
Proof.
  rewrite <- for_word_in_events with (acc := acc) (b := b).
  rewrite <- for_word_in_final with (acc := acc) (b := b).
  rewrite <- for_word_in_result with (b := b).
  destruct (for_word_in s acc b); reflexivity.
Qed.

(** ** The blocks of [main] *)

Section AppFacts.

Variable make_prompt_initial : string -> bool -> bool -> string.
Variable make_prompt_chat_mode : string -> bool -> bool -> string.
Variable config_get : string -> string.
Variable edited_prompt : string.
Variable client_get_completion : Client.

Local Abbreviation run :=
  (main make_prompt_initial make_prompt_chat_mode config_get edited_prompt
     client_get_completion).
Local Abbreviation collected := (collected_prompt edited_prompt).
Local Abbreviation composed :=
  (composed_prompt make_prompt_initial make_prompt_chat_mode).
Local Abbreviation finish := (completed config_get client_get_completion).
Local Abbreviation raw := (raw_prompt edited_prompt).
Local Abbreviation stream := (started config_get client_get_completion).
Local Abbreviation text :=
  (composed_text make_prompt_initial make_prompt_chat_mode edited_prompt).
Local Abbreviation before := (prelude edited_prompt).

(** [main] is its guards followed by its three blocks. *)
Lemma main_blocks (a : Args) :
  run a =
  if list_chat a then call EchoChatIds
  else if Py.given (show_chat a) then
    call (EchoChatMessages (default "" (show_chat a)))
  else if negb (Py.truthy (Py.join " " (prompt a))) && negb (editor a) then
    raise (MissingParameter "PROMPT" "string")
  else bind (collected a) (fun p => bind (composed a p) (fun p => finish a p)).
Proof. reflexivity. Qed.

Lemma collected_run (a : Args) (b : Backend) :
  collected a b =
  MkRun (if editor a then [GetEditedPrompt] else []) b (Val (raw a)).
Proof. unfold collected_prompt, raw_prompt. destruct (editor a); reflexivity. Qed.

(** A request that asks for a completion runs the three blocks. *)
Lemma main_asks (a : Args) (b : Backend) :
  asks_completion a = true ->
  run a b =
  bind (collected a) (fun p => bind (composed a p) (fun p => finish a p)) b.
Proof.
  unfold asks_completion. intros H.
  apply andb_true_iff in H as [H Hp]. apply andb_true_iff in H as [Hl Hs].
  apply negb_true_iff in Hl, Hs.
  rewrite main_blocks, Hl, Hs.
  destruct (Py.truthy (Py.join " " (prompt a))), (editor a);
    try reflexivity; discriminate Hp.
Qed.

(** Any other request ends before a prompt is composed. *)
Lemma main_declines (a : Args) (b : Backend) :
  asks_completion a = false ->
  final (run a b) = b /\
  forall ev, In ev (events (run a b)) ->
    ev = EchoChatIds \/ ev = EchoChatMessages (default "" (show_chat a)).
Proof.
  unfold asks_completion. intros H. rewrite main_blocks.
  destruct (list_chat a); [cbn; intuition|].
  destruct (Py.given (show_chat a)); [cbn; intuition|].
  cbn in H. apply orb_false_iff in H as [-> ->]. cbn. intuition.
Qed.

Lemma exists_true (id : string) (b : Backend) :
  chat_cache.exists_ id b = true ->
  exists first rest, sessions b !! id = Some (first :: rest).
Proof.
  unfold chat_cache.exists_. destruct (sessions b !! id) as [[|first rest]|];
    try discriminate. eauto.
Qed.

(** Lines 106-123 when no session is followed: the initial prompt, with
    the flags of the command line. *)
Lemma composed_initial (a : Args) (p : string) (b : Backend) :
  follows_up a b = false ->
  composed a p b =
  MkRun ((if Py.given (chat a) then [ChatExists (default "" (chat a))] else []) ++
         [MakePromptInitial p (shell a) (code a)])
    b (Val (make_prompt_initial p (shell a) (code a))).
Proof.
  unfold follows_up, composed_prompt. intros H.
  destruct (Py.given (chat a)); cbn in *; [rewrite H|]; reflexivity.
Qed.

(** Lines 106-123 when a session is followed: rejected, or the follow-up
    prompt in the grammar of the session. *)
Lemma composed_followup (a : Args) (p : string) (b : Backend)
    (id : string) (first : Message) (rest : list Message) :
  chat a = Some id -> Py.truthy id = true ->
  sessions b !! id = Some (first :: rest) ->
  let is_shell_chat := Py.endswith (content first) shell_marker in
  let is_code_chat := Py.endswith (content first) code_marker in
  composed a p b =
  if rejected (mode_of is_shell_chat is_code_chat) (shell a) (code a)
  then MkRun [ChatExists id; ChatGetMessages id] b
         (Exc (BadParameter (conflict_message id is_shell_chat)))
  else MkRun [ChatExists id; ChatGetMessages id;
              MakePromptChatMode p is_shell_chat is_code_chat] b
         (Val (make_prompt_chat_mode p is_shell_chat is_code_chat)).
Proof.
  intros Hc Hid Hs. cbn zeta. rewrite <- guards_rejected.
  unfold composed_prompt, chat_cache.exists_, chat_cache.get_messages, conflict_message.
  rewrite Hc. cbn [Py.given default from_option]. rewrite Hid.
  cbn. rewrite Hs. cbn. rewrite Hs. cbn.
  pose proof (markers_exclusive (content first)) as X.
  destruct (Py.endswith (content first) shell_marker);
    [rewrite X by reflexivity|];
    destruct (Py.endswith (content first) code_marker), (code a), (shell a);
    reflexivity.
Qed.

(** Lines 125-144: the client is called with the composed prompt as the
    only message, its chunks are forwarded one by one, and the completion
    is executed or not. *)
Lemma finish_run (a : Args) (p : string) (b : Backend) :
  finish a p b =
  MkRun
    ([ConfigGet "OPENAI_API_HOST"; ConfigGet "OPENAI_API_KEY";
      ClientGetCompletion [{| role := "user"; content := p |}] "gpt-3.5-turbo"
        (temperature a) (top_probability a) (negb (no_cache a)) (chat a)] ++
     concat (map forwarded (words (stream a p b))) ++
     match failure (stream a p b) with
     | None =>
         Secho None true ::
         execution a p (foldr String.append "" (words (stream a p b)))
     | Some _ => []
     end)
    (last_backend (stream a p b))
    match failure (stream a p b) with
    | None => Val tt
    | Some detail => Exc (UpstreamError detail)
    end.
Proof.
  unfold completed, get_completion, execution. fold (stream a p b).
  cbn. unfold bind. fold (stream a p b). rewrite for_word_in_run. cbn.
  destruct (failure (stream a p b)); cbn.
  - rewrite app_nil_r. reflexivity.
  - destruct (negb (code a) && shell a), (negb (demo a)),
      (Py.contains p "only PowerShell commands"); cbn; reflexivity.
Qed.

Lemma bind_val {A B} (m : M A) (k : A -> M B) (b b' : Backend)
    (evs : list Event) (x : A) :
  m b = MkRun evs b' (Val x) ->
  bind m k b = MkRun (evs ++ events (k x b')) (final (k x b')) (result (k x b')).
Proof. intros H. unfold bind. rewrite H. reflexivity. Qed.

Lemma bind_exc {A B} (m : M A) (k : A -> M B) (b b' : Backend)
    (evs : list Event) (e : Exception) :
  m b = MkRun evs b' (Exc e) -> bind m k b = MkRun evs b' (Exc e).
Proof. intros H. unfold bind. rewrite H. reflexivity. Qed.

(** Lines 106-123 in one equation. *)
Lemma composed_run (a : Args) (b : Backend) :
  composed a (raw a) b =
  MkRun
    ((if Py.given (chat a) then [ChatExists (default "" (chat a))] else []) ++
     (if follows_up a b then
        ChatGetMessages (default "" (chat a)) ::
        (if refused a b then []
         else [MakePromptChatMode (raw a)
                 (fst (session_flags a b)) (snd (session_flags a b))])
      else [MakePromptInitial (raw a) (shell a) (code a)]))
    b
    (if refused a b
     then Exc (BadParameter
                 (conflict_message (default "" (chat a)) (fst (session_flags a b))))
     else Val (text a b)).
Proof.
  destruct (follows_up a b) eqn:F.
  - pose proof F as F'. unfold follows_up in F'.
    apply andb_true_iff in F' as [G E].
    destruct (chat a) as [id|] eqn:Hc; [|discriminate G].
    cbn [Py.given] in G. cbn [default from_option] in *.
    destruct (exists_true _ _ E) as (first & rest & Hs).
    rewrite (composed_followup a (raw a) b id first rest Hc G Hs).
    rewrite <- guards_rejected.
    unfold refused, composed_text, session_flags. rewrite F, Hc.
    cbn [Py.given default from_option fst snd]. rewrite G, Hs.
    cbn [fst snd andb].
    destruct (_ || _); reflexivity.
  - rewrite (composed_initial a (raw a) b F).
    unfold refused, composed_text. rewrite F. reflexivity.
Qed.

(** A request that asks for a completion and is refused. *)
Lemma main_refused (a : Args) (b : Backend) :
  asks_completion a = true -> refused a b = true ->
  run a b =
  MkRun (before a b) b
    (Exc (BadParameter
            (conflict_message (default "" (chat a)) (fst (session_flags a b))))).
Proof.
  intros Ha Hr. rewrite (main_asks a b Ha).
  rewrite (bind_val _ _ _ _ _ _ (collected_run a b)).
  pose proof (composed_run a b) as C. rewrite Hr in C.
  rewrite (bind_exc _ _ _ _ _ _ C). cbn [events final result].
  unfold prelude. rewrite Hr. reflexivity.
Qed.

(** A request that asks for a completion and is not refused reaches the
    client with the composed prompt. *)
Lemma main_accepted (a : Args) (b : Backend) :
  asks_completion a = true -> refused a b = false ->
  run a b =
  MkRun (before a b ++ events (finish a (text a b) b))
    (final (finish a (text a b) b)) (result (finish a (text a b) b)).
Proof.
  intros Ha Hr. rewrite (main_asks a b Ha).
  rewrite (bind_val _ _ _ _ _ _ (collected_run a b)).
  pose proof (composed_run a b) as C. rewrite Hr in C.
  rewrite (bind_val _ _ _ _ _ _ C). cbn [events final result].
  unfold prelude. rewrite Hr, <- !app_assoc. reflexivity.
Qed.

(** What the blocks know about a session that is followed. *)
Lemma infer_mode_some (id : string) (b : Backend) (m : Mode) :
  infer_mode id b = Some m ->
  exists first rest,
    sessions b !! id = Some (first :: rest) /\
    m = mode_of (Py.endswith (content first) shell_marker)
                (Py.endswith (content first) code_marker).
Proof.
  unfold infer_mode, chat_cache.get_messages.
  destruct (sessions b !! id) as [[|first rest]|]; cbn; try discriminate.
  intros [= <-]. eauto.
Qed.

Lemma followed (a : Args) (b : Backend) (id : string) (m : Mode) :
  chat a = Some id -> Py.truthy id = true -> infer_mode id b = Some m ->
  follows_up a b = true /\
  session_flags a b = (is_shell_mode m, is_code_mode m) /\
  refused a b = rejected m (shell a) (code a).
Proof.
  intros Hc Hid Hm. destruct (infer_mode_some _ _ _ Hm) as (first & rest & Hs & ->).
  unfold refused, follows_up, session_flags, chat_cache.exists_.
  rewrite Hc. cbn [Py.given default from_option Datatypes.id]. rewrite Hid, Hs.
  cbn [fst snd andb]. rewrite guards_rejected.
  pose proof (markers_exclusive (content first)) as X.
  destruct (Py.endswith (content first) shell_marker);
    [rewrite X by reflexivity|]; auto.
  destruct (Py.endswith (content first) code_marker); auto.
Qed.

Lemma finish_no_conflict (a : Args) (p : string) (b : Backend) :
  is_mode_conflict (result (finish a p b)) = false.
Proof. rewrite finish_run. cbn. destruct (failure _); reflexivity. Qed.

Lemma sent_messages_quiet (pre evs : list Event) :
  existsb is_client_call pre = false ->
  sent_messages (pre ++ evs) = sent_messages evs.
Proof.
  induction pre as [|ev pre IH]; [reflexivity|].
  cbn [existsb]. intros H. apply orb_false_iff in H as [H1 H2].
  destruct ev; try discriminate H1; cbn; auto.
Qed.

Lemma sent_messages_none (evs : list Event) :
  existsb is_client_call evs = false -> sent_messages evs = None.
Proof.
  intros H. rewrite <- (app_nil_r evs). rewrite sent_messages_quiet by exact H.
  reflexivity.
Qed.

Lemma existsb_forwarded (P : Event -> bool) (ws : list string) :
  (forall w, P (Next w) = false) ->
  (forall w, P (Secho (Some w) false) = false) ->
  existsb P (concat (map forwarded ws)) = false.
Proof.
  intros H1 H2. induction ws as [|w ws IH]; [reflexivity|].
  cbn. rewrite H1, H2. exact IH.
Qed.

(** Nothing before the client call is a client call, an execution, or
    more than one composition. *)
Lemma before_quiet (a : Args) (b : Backend) :
  existsb is_client_call (before a b) = false /\
  existsb is_execution (before a b) = false /\
  existsb is_chat_mode_call (before a b) = follows_up a b && negb (refused a b) /\
  existsb is_initial_call (before a b) = negb (follows_up a b).
Proof.
  unfold prelude.
  destruct (editor a), (Py.given (chat a)), (follows_up a b), (refused a b);
    repeat split; reflexivity.
Qed.

Lemma finish_quiet (a : Args) (p : string) (b : Backend) :
  existsb is_chat_mode_call (events (finish a p b)) = false /\
  existsb is_initial_call (events (finish a p b)) = false.
Proof.
  rewrite finish_run. cbn [events]. rewrite !existsb_app.
  rewrite !existsb_forwarded by reflexivity.
  unfold execution.
  destruct (failure _), (negb (code a) && shell a), (negb (demo a)),
    (Py.contains p "only PowerShell commands"); split; reflexivity.
Qed.

Lemma finish_sent (a : Args) (p : string) (b : Backend) :
  sent_messages (events (finish a p b)) = Some [{| role := "user"; content := p |}].
Proof. rewrite finish_run. reflexivity. Qed.

(** Which requests reach the client, and with what. *)
Lemma reaches_client (a : Args) (b : Backend) :
  sent_messages (events (run a b)) =
  if asks_completion a && negb (refused a b)
  then Some [{| role := "user"; content := text a b |}]
  else None.
Proof.
  destruct (asks_completion a) eqn:Ha.
  - destruct (refused a b) eqn:Hr; cbn [andb negb].
    + rewrite (main_refused a b Ha Hr). cbn [events].
      apply sent_messages_none, before_quiet.
    + rewrite (main_accepted a b Ha Hr). cbn [events].
      rewrite sent_messages_quiet by apply before_quiet. apply finish_sent.
  - cbn [andb]. apply sent_messages_none.
    destruct (main_declines a b Ha) as [_ H].
    destruct (existsb is_client_call (events (run a b))) eqn:E; [|reflexivity].
    apply existsb_exists in E as (ev & Hin & Hev).
    destruct (H ev Hin) as [-> | ->]; discriminate Hev.
Qed.

Lemma conflict_is_rejected (a : Args) (b : Backend) (id : string) (m : Mode) :
  asks_completion a = true ->
  chat a = Some id -> Py.truthy id = true ->
  infer_mode id b = Some m ->
  is_mode_conflict (result (run a b)) = rejected m (shell a) (code a).
Proof.
  intros Ha Hc Hid Hi.
  destruct (followed a b id m Hc Hid Hi) as (F & _ & R).
  destruct (rejected m (shell a) (code a)).
  - rewrite (main_refused a b Ha R). reflexivity.
  - rewrite (main_accepted a b Ha R). apply finish_no_conflict.
Qed.

(** ** The claims about [main], for any composer and any client *)

(** C9: with an empty collected prompt and no editor flag (and neither
    reporting path taken), [main] raises [MissingParameter] at once: the
    run made no call at all, so no prompt was composed, no session or
    cache was touched and the client was not called, and the backend is
    as it was. *)
Theorem missing_prompt_fails_first (a : Args) (b : Backend) :
  list_chat a = false ->
  Py.given (show_chat a) = false ->
  Py.join " " (prompt a) = "" ->
  editor a = false ->
  run a b = MkRun [] b (Exc (MissingParameter "PROMPT" "string")).
Proof.
  intros Hl Hs Hp He. rewrite main_blocks, Hl, Hs, Hp, He. reflexivity.
Qed.

(** C1: a follow-up on a session that [infer_mode] reads as shell mode,
    with the code flag set, ends in [BadParameter] (the mode conflict),
    and so does one on a code-mode session with the shell flag set.  The
    backend (sessions, cache, log of lookups and remote calls) is left
    as it was, and the only calls made are the editor (when asked for)
    and the two reads of the chat cache: the client is never called. *)
Theorem mode_conflict_before_effects (a : Args) (b : Backend) (id : string) :
  asks_completion a = true ->
  chat a = Some id -> Py.truthy id = true ->
  (infer_mode id b = Some ShellMode /\ code a = true) \/
  (infer_mode id b = Some CodeMode /\ shell a = true) ->
  is_mode_conflict (result (run a b)) = true /\
  final (run a b) = b /\
  events (run a b) =
    (if editor a then [GetEditedPrompt] else []) ++ [ChatExists id; ChatGetMessages id].
Proof.
  intros Ha Hc Hid Hm.
  assert (exists m, infer_mode id b = Some m /\ rejected m (shell a) (code a) = true)
    as (m & Hi & Hr).
  { destruct Hm as [[Hi Hf]|[Hi Hf]]; eexists; (split; [exact Hi|cbn; exact Hf]). }
  destruct (followed a b id m Hc Hid Hi) as (F & _ & R). rewrite Hr in R.
  rewrite (main_refused a b Ha R). cbn [result final events is_mode_conflict].
  repeat split. unfold prelude. rewrite F, R, Hc.
  cbn [Py.given default from_option Datatypes.id]. rewrite Hid. reflexivity.
Qed.

(** C2, as the code has it: a follow-up on an existing session ends in
    [BadParameter] exactly when the session is in shell mode and the code
    flag is set, or in code mode and the shell flag is set; on a
    plain-mode session no flag is refused. *)
Theorem mode_conflict_exactly_rejected (a : Args) (b : Backend) (id : string) (m : Mode) :
  asks_completion a = true ->
  chat a = Some id -> Py.truthy id = true ->
  infer_mode id b = Some m ->
  is_mode_conflict (result (run a b)) = rejected m (shell a) (code a).
Proof. apply conflict_is_rejected. Qed.

(** C5: on an existing session, the prompt handed to the client is
    [make_prompt.chat_mode] of the raw prompt and the two booleans of the
    session's mode.  Two runs that differ only in the shell and code flags,
    neither of them refused as a conflict, hand over the same prompt. *)
Theorem followup_ignores_flags (a : Args) (b : Backend) (id : string) (m : Mode)
    (shell1 code1 shell2 code2 : bool) :
  asks_completion a = true ->
  chat a = Some id -> Py.truthy id = true ->
  infer_mode id b = Some m ->
  is_mode_conflict (result (run (with_grammar a shell1 code1) b)) = false ->
  is_mode_conflict (result (run (with_grammar a shell2 code2) b)) = false ->
  let composed :=
    make_prompt_chat_mode (raw a) (is_shell_mode m) (is_code_mode m) in
  sent_messages (events (run (with_grammar a shell1 code1) b)) =
    Some [{| role := "user"; content := composed |}] /\
  sent_messages (events (run (with_grammar a shell2 code2) b)) =
    Some [{| role := "user"; content := composed |}].
Proof.
  intros Ha Hc Hid Hi H1 H2 composed.
  assert (forall s c,
    is_mode_conflict (result (run (with_grammar a s c) b)) = false ->
    sent_messages (events (run (with_grammar a s c) b)) =
      Some [{| role := "user"; content := composed |}]) as G.
  { intros s c H.
    rewrite (conflict_is_rejected (with_grammar a s c) b id m Ha Hc Hid Hi) in H.
    destruct (followed (with_grammar a s c) b id m Hc Hid Hi) as (F & Hm & R).
    rewrite H in R. rewrite reaches_client, R.
    change (asks_completion (with_grammar a s c)) with (asks_completion a).
    rewrite Ha. cbn [andb negb]. unfold composed_text. rewrite F, Hm.
    reflexivity. }
  split; apply G; assumption.
Qed.

(** C6: for a request whose prompt is composed and handed to the client,
    the composition is the follow-up one ([make_prompt.chat_mode]) if and
    only if a chat id is given and a session exists under it; in every
    other case it is [make_prompt.initial] on the raw prompt with the
    shell and code flags of the command line. *)
Theorem followup_iff_session_exists (a : Args) (b : Backend) (msgs : list Message) :
  sent_messages (events (run a b)) = Some msgs ->
  existsb is_chat_mode_call (events (run a b)) = follows_up a b /\
  existsb is_initial_call (events (run a b)) = negb (follows_up a b) /\
  (follows_up a b = false ->
     In (MakePromptInitial (raw a) (shell a) (code a)) (events (run a b)) /\
     msgs = [{| role := "user";
                content := make_prompt_initial (raw a) (shell a) (code a) |}]) /\
  (follows_up a b = true ->
     msgs = [{| role := "user";
                content := make_prompt_chat_mode (raw a)
                             (fst (session_flags a b)) (snd (session_flags a b)) |}]).
Proof.
  rewrite reaches_client.
  destruct (asks_completion a) eqn:Ha; [|discriminate].
  destruct (refused a b) eqn:Hr; [discriminate|].
  cbn [andb negb]. intros [= <-].
  rewrite (main_accepted a b Ha Hr). cbn [events].
  rewrite !existsb_app.
  destruct (before_quiet a b) as (_ & _ & Q1 & Q2).
  destruct (finish_quiet a (text a b) b) as (Q3 & Q4).
  rewrite Q1, Q2, Q3, Q4, Hr, !orb_false_r, andb_true_r.
  split; [reflexivity|]. split; [reflexivity|]. split; intros F.
  - split.
    + apply in_or_app. left. unfold prelude. rewrite F.
      apply in_or_app. right. apply in_or_app. right. left. reflexivity.
    + unfold composed_text. rewrite F. reflexivity.
  - unfold composed_text. rewrite F. reflexivity.
Qed.

(** C10: whenever a run of [main] calls [os.system] or [subprocess.run],
    the shell flag is set, the code flag is not and the demo flag is not,
    and what is executed is the accumulated completion.  So with the demo
    flag, or with the code flag even next to the shell flag, nothing is
    executed. *)
Theorem executes_only_shell_not_demo (a : Args) (b : Backend) (ev : Event) :
  In ev (events (run a b)) ->
  is_execution ev = true ->
  (shell a = true /\ code a = false /\ demo a = false) /\
  let completion := foldr String.append "" (words (stream a (text a b) b)) in
  (ev = OsSystem completion \/
   ev = SubprocessRun ["powershell"; "-Command"; completion]).
Proof.
  intros Hin Hex.
  destruct (asks_completion a) eqn:Ha.
  - destruct (refused a b) eqn:Hr.
    + rewrite (main_refused a b Ha Hr) in Hin. cbn [events] in Hin.
      destruct (before_quiet a b) as (_ & Q & _).
      assert (existsb is_execution (before a b) = true) as E
        by (apply existsb_exists; eauto).
      congruence.
    + rewrite (main_accepted a b Ha Hr) in Hin. cbn [events] in Hin.
      apply in_app_or in Hin as [Hin|Hin].
      { destruct (before_quiet a b) as (_ & Q & _).
        assert (existsb is_execution (before a b) = true) as E
          by (apply existsb_exists; eauto).
        congruence. }
      rewrite finish_run in Hin. cbn [events] in Hin.
      apply in_app_or in Hin as [Hin|Hin].
      { cbn in Hin. destruct Hin as [<-|[<-|[<-|[]]]]; discriminate Hex. }
      apply in_app_or in Hin as [Hin|Hin].
      { assert (existsb is_execution
                  (concat (map forwarded (words (stream a (text a b) b)))) = true) as E
          by (apply existsb_exists; eauto).
        rewrite existsb_forwarded in E by reflexivity. discriminate E. }
      destruct (failure _); [destruct Hin|].
      destruct Hin as [<-|Hin]; [discriminate Hex|].
      unfold execution in Hin.
      destruct (code a), (shell a), (demo a); cbn in Hin; try destruct Hin.
      destruct (Py.contains _ _); destruct Hin as [<-|[]]; auto.
  - destruct (main_declines a b Ha) as [_ H].
    destruct (H ev Hin) as [-> | ->]; discriminate Hex.
Qed.

End AppFacts.

(** ** The loop and the session mode *)

(** C7: the loop of lines 133-136 forwards each chunk as soon as the
    iterator hands it over ([Next w] is followed at once by the [secho] of
    [w], before the next chunk is asked for), and when the iterator ends
    without an error the accumulated text is the concatenation of the
    chunks in the order produced. *)
Theorem chunks_forwarded_and_accumulated (s : Stream) (b : Backend) :
  events (for_word_in s "" b) = concat (map forwarded (words s)) /\
  result (for_word_in s "" b) =
    match failure s with
    | None => Val (foldr String.append "" (words s))
    | Some detail => Exc (UpstreamError detail)
    end.
Proof.
  split; [apply for_word_in_events|].
  rewrite for_word_in_result. reflexivity.
Qed.

Lemma append_keeps_first (id id' : string) (m first : Message) (rest : list Message)
    (b : Backend) :
  sessions b !! id = Some (first :: rest) ->
  exists rest', sessions (chat_cache.append id' m b) !! id = Some (first :: rest').
Proof.
  intros H. unfold chat_cache.append. cbn [sessions].
  destruct (decide (id' = id)) as [->|Hne].
  - rewrite lookup_insert_eq, H. cbn. eauto.
  - rewrite lookup_insert_ne by exact Hne. eauto.
Qed.

Lemma extend_keeps_first (followups : list (string * Message)) (id : string)
    (first : Message) (rest : list Message) (b : Backend) :
  sessions b !! id = Some (first :: rest) ->
  exists rest', sessions (chat_cache.extend followups b) !! id = Some (first :: rest').
Proof.
  revert rest b. induction followups as [|[id' m] fs IH]; intros rest b H.
  - eauto.
  - cbn. destruct (append_keeps_first id id' m first rest b H) as [rest' H'].
    apply (IH rest' _ H').
Qed.

Lemma infer_mode_first (id : string) (b : Backend) (first : Message) (rest : list Message) :
  sessions b !! id = Some (first :: rest) ->
  infer_mode id b =
  Some (mode_of (Py.endswith (content first) shell_marker)
                (Py.endswith (content first) code_marker)).
Proof. intros H. unfold infer_mode, chat_cache.get_messages. rewrite H. reflexivity. Qed.

(** C3: the mode of an existing session is read off the end of its first
    stored message alone: shell iff it ends with the shell marker, code iff
    it ends with the code marker, plain otherwise; and it stays the same
    however many messages are appended afterwards. *)
Theorem mode_from_first_message (id : string) (b : Backend)
    (first : Message) (rest : list Message) :
  sessions b !! id = Some (first :: rest) ->
  (infer_mode id b = Some ShellMode <->
     Py.endswith (content first) shell_marker = true) /\
  (infer_mode id b = Some CodeMode <->
     Py.endswith (content first) code_marker = true) /\
  (infer_mode id b = Some PlainMode <->
     Py.endswith (content first) shell_marker = false /\
     Py.endswith (content first) code_marker = false) /\
  (forall followups : list (string * Message),
     infer_mode id (chat_cache.extend followups b) = infer_mode id b).
Proof.
  intros H. rewrite (infer_mode_first id b first rest H).
  split; [|split; [|split]].
  - split; [intros [= E] | intros E; f_equal]; apply mode_of_shell, E.
  - split; [intros [= E] | intros E; f_equal]; apply mode_of_code, E.
  - split; [intros [= E] | intros E; f_equal]; apply mode_of_plain, E.
  - intros followups.
    destruct (extend_keeps_first followups id first rest b H) as [rest' H'].
    apply (infer_mode_first _ _ _ _ H').
Qed.

(** ** The gateway behind [main] *)

Section GatewayFacts.

Variable compute_fingerprint : list Message -> string -> float -> float -> string.
Variable transport :
  list Message -> string -> float -> float -> list string * option string.
Variable make_prompt_initial : string -> bool -> bool -> string.
Variable make_prompt_chat_mode : string -> bool -> bool -> string.
Variable config_get : string -> string.
Variable edited_prompt : string.

Local Abbreviation client := (gateway compute_fingerprint transport).
Local Abbreviation run :=
  (main make_prompt_initial make_prompt_chat_mode config_get edited_prompt client).
Local Abbreviation text :=
  (composed_text make_prompt_initial make_prompt_chat_mode edited_prompt).

Lemma appends_keep (id : string) (messages : list Message) (b : Backend) :
  wire (foldl (fun b m => chat_cache.append id m b) b messages) = wire b /\
  cache (foldl (fun b m => chat_cache.append id m b) b messages) = cache b.
Proof.
  revert b. induction messages as [|m ms IH]; intros b; [auto|].
  cbn [foldl]. destruct (IH (chat_cache.append id m b)) as [-> ->]. auto.
Qed.

Lemma record_exchange_keeps (chat_id : option string) (messages : list Message)
    (text : string) (b : Backend) :
  wire (record_exchange chat_id messages text b) = wire b /\
  cache (record_exchange chat_id messages text b) = cache b.
Proof.
  unfold record_exchange. destruct (Py.given chat_id); [|auto].
  cbn [chat_cache.append wire cache]. apply appends_keep.
Qed.

Lemma stream_chunks_last (chunks : list string) (b : Backend)
    (finish : string -> Stream) (acc : string) :
  last_backend (stream_chunks chunks b finish acc) =
  last_backend (finish (acc +:+ foldr String.append "" chunks)).
Proof.
  revert acc. induction chunks as [|c cs IH]; intros acc; cbn.
  - rewrite append_empty_r. reflexivity.
  - rewrite IH, append_assoc. reflexivity.
Qed.

(** With caching off the gateway neither reads nor writes the cache and
    calls the transport once, with the history and the new messages. *)
Lemma gateway_uncached (api_host api_key : string) (messages : list Message)
    (model : string) (t p : float) (chat_id : option string) (b : Backend) :
  wire (last_backend (client api_host api_key messages model t p false chat_id b)) =
    wire b ++ [Transport (history chat_id b ++ messages) model t p] /\
  cache (last_backend (client api_host api_key messages model t p false chat_id b)) =
    cache b.
Proof.
  unfold gateway. destruct (transport _ _ _ _) as [chunks [detail|]];
    rewrite stream_chunks_last; cbn [last_backend]; [auto|].
  destruct (record_exchange_keeps chat_id messages
              ("" +:+ foldr String.append "" chunks)
              (log (Transport (history chat_id b ++ messages) model t p) b))
    as [-> ->]. auto.
Qed.

(** Whatever the gateway looks up, stores or sends is computed from the
    history followed by the new messages, and it does at least one of
    these. *)
Lemma gateway_outbound (api_host api_key : string) (messages : list Message)
    (model : string) (t p : float) (caching : bool) (chat_id : option string)
    (b : Backend) :
  exists new,
    wire (last_backend (client api_host api_key messages model t p caching chat_id b)) =
      wire b ++ new /\
    new <> [] /\
    Forall (about compute_fingerprint (history chat_id b ++ messages) model t p) new.
Proof.
  destruct caching.
  - unfold gateway. cbn [log cache].
    destruct (cache b !! _) as [value|].
    + cbn [last_backend].
      destruct (record_exchange_keeps chat_id messages value
        (log (CacheLookup (compute_fingerprint (history chat_id b ++ messages) model t p)) b))
        as [-> _].
      eexists. split; [reflexivity|]. split; [discriminate|].
      repeat constructor.
    + destruct (transport _ _ _ _) as [chunks [detail|]];
        rewrite stream_chunks_last; cbn [last_backend].
      * cbn [log wire]. rewrite <- app_assoc.
        eexists. split; [reflexivity|]. split; [discriminate|].
        repeat constructor.
      * match goal with |- context [record_exchange ?c ?m ?x ?y] =>
          destruct (record_exchange_keeps c m x y) as [-> _] end.
        cbn [cache_store log wire]. rewrite <- !app_assoc.
        eexists. split; [reflexivity|]. split; [discriminate|].
        repeat constructor.
  - destruct (gateway_uncached api_host api_key messages model t p chat_id b) as [-> _].
    eexists. split; [reflexivity|]. split; [discriminate|].
    repeat constructor.
Qed.

Lemma accepted_final (a : Args) (b : Backend) :
  asks_completion a = true -> refused a b = false ->
  final (run a b) =
  last_backend
    (client (config_get "OPENAI_API_HOST") (config_get "OPENAI_API_KEY")
       [{| role := "user"; content := text a b |}] "gpt-3.5-turbo"
       (temperature a) (top_probability a) (negb (no_cache a)) (chat a) b).
Proof.
  intros Ha Hr. rewrite (main_accepted _ _ _ _ _ a b Ha Hr). cbn [final].
  rewrite finish_run. reflexivity.
Qed.

Lemma unreached_final (a : Args) (b : Backend) :
  asks_completion a && negb (refused a b) = false -> final (run a b) = b.
Proof.
  destruct (asks_completion a) eqn:Ha.
  - destruct (refused a b) eqn:Hr; [|discriminate]. intros _.
    rewrite (main_refused _ _ _ _ _ a b Ha Hr). reflexivity.
  - intros _. apply (main_declines _ _ _ _ _ a b Ha).
Qed.

(** One run with [--no-cache]. *)
Lemma uncached_run (a : Args) (b : Backend) :
  no_cache a = true ->
  cache (final (run a b)) = cache b /\
  wire (final (run a b)) =
    wire b ++
    (if asks_completion a && negb (refused a b)
     then [Transport (history (chat a) b ++ [{| role := "user"; content := text a b |}])
             "gpt-3.5-turbo" (temperature a) (top_probability a)]
     else []).
Proof.
  intros Hn. destruct (asks_completion a && negb (refused a b)) eqn:E.
  - apply andb_true_iff in E as [Ha Hr]. apply negb_true_iff in Hr.
    rewrite (accepted_final a b Ha Hr), Hn. cbn [negb].
    destruct (gateway_uncached (config_get "OPENAI_API_HOST")
                (config_get "OPENAI_API_KEY")
                [{| role := "user"; content := text a b |}] "gpt-3.5-turbo"
                (temperature a) (top_probability a) (chat a) b) as [-> ->].
    auto.
  - rewrite (unreached_final a b E), app_nil_r. auto.
Qed.

(** C4: when a request reaches the completion call, the list that the
    gateway fingerprints (for the lookup and the store) and sends to the
    transport is the persisted history of the session, when there is one,
    followed by the newly composed user turn; and at least one lookup or
    transport happens. *)
Theorem outbound_is_history_then_turn (a : Args) (b : Backend) (msgs : list Message) :
  sent_messages (events (run a b)) = Some msgs ->
  msgs = [{| role := "user"; content := text a b |}] /\
  exists new,
    wire (final (run a b)) = wire b ++ new /\
    new <> [] /\
    Forall (about compute_fingerprint
              (history (chat a) b ++ [{| role := "user"; content := text a b |}])
              "gpt-3.5-turbo" (temperature a) (top_probability a)) new.
Proof.
  rewrite reaches_client.
  destruct (asks_completion a) eqn:Ha; [|discriminate].
  destruct (refused a b) eqn:Hr; [discriminate|].
  cbn [andb negb]. intros [= <-]. split; [reflexivity|].
  rewrite (accepted_final a b Ha Hr). apply gateway_outbound.
Qed.

(** C8: with [--no-cache] a run leaves the cache as it was and logs
    neither a lookup nor a store; and of two identical consecutive
    requests that reach the completion call, each one calls the
    transport. *)
Theorem no_cache_skips_cache (a : Args) (b : Backend) :
  no_cache a = true ->
  cache (final (run a b)) = cache b /\
  cache (final (run a (final (run a b)))) = cache b /\
  exists new,
    wire (final (run a (final (run a b)))) = wire b ++ new /\
    existsb is_cache_access new = false /\
    (is_Some (sent_messages (events (run a b))) ->
     is_Some (sent_messages (events (run a (final (run a b))))) ->
     exists first second,
       new = [Transport first "gpt-3.5-turbo" (temperature a) (top_probability a);
              Transport second "gpt-3.5-turbo" (temperature a) (top_probability a)]).
Proof.
  intros Hn.
  destruct (uncached_run a b Hn) as [C1 W1].
  destruct (uncached_run a (final (run a b)) Hn) as [C2 W2].
  split; [exact C1|]. split; [rewrite C2; exact C1|].
  rewrite W2, W1, <- app_assoc. eexists. split; [reflexivity|].
  rewrite !reaches_client.
  destruct (asks_completion a && negb (refused a b));
    destruct (asks_completion a && negb (refused a (final (run a b))));
    (split; [reflexivity|]); intros [x Hx] [y Hy]; try discriminate.
  cbn [app]. eauto.
Qed.

End GatewayFacts.

(** ** The claims at concrete runs *)

(** [sgpt --shell list files] on a fresh backend: the whole run. *)
Example shell_request_run :
  events (Sample.run (Sample.args ["list"; "files"] None true false) Sample.empty) =
    [MakePromptInitial "list files" true false;
     ConfigGet "OPENAI_API_HOST"; ConfigGet "OPENAI_API_KEY";
     ClientGetCompletion
       [{| role := "user"; content := "Shell: list files" +:+ shell_marker |}]
       "gpt-3.5-turbo" 1%float 1%float true None;
     Next "ls"; Secho (Some "ls") false; Next " -la"; Secho (Some " -la") false;
     Secho None true; OsSystem "ls -la"] /\
  result (Sample.run (Sample.args ["list"; "files"] None true false) Sample.empty) =
    Val tt /\
  cache (final (Sample.run (Sample.args ["list"; "files"] None true false) Sample.empty))
    !! Sample.fingerprint
         [{| role := "user"; content := "Shell: list files" +:+ shell_marker |}]
         "gpt-3.5-turbo" 1%float 1%float = Some "ls -la".
Proof. repeat split; vm_compute; reflexivity. Qed.

(** A session started with [--shell] still reads as shell mode after a
    follow-up has been recorded in it. *)
Example shell_session_stays_shell :
  infer_mode "abc"
    (final (Sample.run (Sample.args ["and"; "hidden"; "ones"] (Some "abc") false false)
              (final (Sample.run (Sample.args ["list"; "files"] (Some "abc") true false)
                        Sample.empty)))) = Some ShellMode.
Proof. vm_compute. reflexivity. Qed.

(** A code session followed with [--shell] is refused before the client. *)
Example code_session_refuses_shell :
  Sample.run (Sample.args ["as"; "a"; "command"] (Some "abc") true false) Sample.code_chat =
  MkRun [ChatExists "abc"; ChatGetMessages "abc"] Sample.code_chat
    (Exc (BadParameter
            "Chat id:abc was initiated as code assistant, can be used with --code only")).
Proof. vm_compute. reflexivity. Qed.

Lemma missing_prompt_witness :
  list_chat (Sample.args [] None false false) = false /\
  Py.given (show_chat (Sample.args [] None false false)) = false /\
  Py.join " " (prompt (Sample.args [] None false false)) = "" /\
  editor (Sample.args [] None false false) = false /\
  Sample.run (Sample.args [] None false false) Sample.empty =
    MkRun [] Sample.empty (Exc (MissingParameter "PROMPT" "string")).
Proof.
  repeat (split; [reflexivity|]).
  apply missing_prompt_fails_first; reflexivity.
Defined.

Lemma mode_conflict_witness :
  infer_mode "abc" Sample.shell_chat = Some ShellMode /\
  is_mode_conflict
    (result (Sample.run (Sample.args ["in"; "python"] (Some "abc") false true)
               Sample.shell_chat)) = true /\
  final (Sample.run (Sample.args ["in"; "python"] (Some "abc") false true)
           Sample.shell_chat) = Sample.shell_chat /\
  events (Sample.run (Sample.args ["in"; "python"] (Some "abc") false true)
            Sample.shell_chat) =
    [ChatExists "abc"; ChatGetMessages "abc"].
Proof.
  split; [reflexivity|].
  apply (mode_conflict_before_effects Sample.initial Sample.chat_mode Sample.config
           Sample.edited Sample.client
           (Sample.args ["in"; "python"] (Some "abc") false true)
           Sample.shell_chat "abc");
    [reflexivity | reflexivity | reflexivity | left; split; reflexivity].
Defined.

(** C2 as the specification states it fails on a plain-mode session: the
    shell flag counts as a conflict there, and the run is not refused. *)
Lemma plain_session_accepts_shell_flag :
  asks_completion (Sample.args ["why"] (Some "abc") true false) = true /\
  infer_mode "abc" Sample.plain_chat = Some PlainMode /\
  requested_conflicts PlainMode
    (shell (Sample.args ["why"] (Some "abc") true false))
    (code (Sample.args ["why"] (Some "abc") true false)) = true /\
  is_mode_conflict
    (result (Sample.run (Sample.args ["why"] (Some "abc") true false)
               Sample.plain_chat)) = false.
Proof. repeat split; vm_compute; reflexivity. Qed.

Lemma mode_conflict_exactly_witness :
  infer_mode "abc" Sample.plain_chat = Some PlainMode /\
  is_mode_conflict
    (result (Sample.run (Sample.args ["why"] (Some "abc") true false)
               Sample.plain_chat)) = false.
Proof.
  split; [reflexivity|].
  apply (mode_conflict_exactly_rejected Sample.initial Sample.chat_mode Sample.config
           Sample.edited Sample.client
           (Sample.args ["why"] (Some "abc") true false)
           Sample.plain_chat "abc" PlainMode); reflexivity.
Defined.

Lemma mode_from_first_message_witness :
  infer_mode "abc" Sample.shell_chat = Some ShellMode /\
  forall followups : list (string * Message),
    infer_mode "abc" (chat_cache.extend followups Sample.shell_chat) =
    infer_mode "abc" Sample.shell_chat.
Proof.
  destruct (mode_from_first_message "abc" Sample.shell_chat
              {| role := "user"; content := Sample.initial "list files" true false |}
              [] eq_refl) as (S & _ & _ & K).
  split; [apply S; reflexivity | exact K].
Defined.

Lemma outbound_witness :
  sent_messages
    (events (Sample.run (Sample.args ["and"; "hidden"; "ones"] (Some "abc") true false)
               Sample.shell_chat)) =
    Some [{| role := "user"; content := "and hidden ones" +:+ shell_marker |}] /\
  exists new,
    wire (final (Sample.run (Sample.args ["and"; "hidden"; "ones"] (Some "abc") true false)
                   Sample.shell_chat)) = [] ++ new /\
    new <> [] /\
    Forall (about Sample.fingerprint
              ([{| role := "user"; content := Sample.initial "list files" true false |}] ++
               [{| role := "user"; content := "and hidden ones" +:+ shell_marker |}])
              "gpt-3.5-turbo" 1%float 1%float) new.
Proof.
  split; [reflexivity|].
  apply (outbound_is_history_then_turn Sample.fingerprint Sample.transport
           Sample.initial Sample.chat_mode Sample.config Sample.edited
           (Sample.args ["and"; "hidden"; "ones"] (Some "abc") true false)
           Sample.shell_chat
           [{| role := "user"; content := "and hidden ones" +:+ shell_marker |}]).
  reflexivity.
Defined.

Lemma followup_ignores_flags_witness :
  sent_messages
    (events (Sample.run
               (with_grammar (Sample.args ["and"; "hidden"; "ones"] (Some "abc") false false)
                  true false)
               Sample.shell_chat)) =
    Some [{| role := "user"; content := "and hidden ones" +:+ shell_marker |}] /\
  sent_messages
    (events (Sample.run
               (with_grammar (Sample.args ["and"; "hidden"; "ones"] (Some "abc") false false)
                  false false)
               Sample.shell_chat)) =
    Some [{| role := "user"; content := "and hidden ones" +:+ shell_marker |}].
Proof.
  apply (followup_ignores_flags Sample.initial Sample.chat_mode Sample.config
           Sample.edited Sample.client
           (Sample.args ["and"; "hidden"; "ones"] (Some "abc") false false)
           Sample.shell_chat "abc" ShellMode true false false false);
    reflexivity.
Defined.

Lemma followup_iff_witness :
  follows_up (Sample.args ["hi"] (Some "new") false true) Sample.shell_chat = false /\
  existsb is_chat_mode_call
    (events (Sample.run (Sample.args ["hi"] (Some "new") false true) Sample.shell_chat)) =
    false /\
  In (MakePromptInitial "hi" false true)
    (events (Sample.run (Sample.args ["hi"] (Some "new") false true) Sample.shell_chat)).
Proof.
  destruct (followup_iff_session_exists Sample.initial Sample.chat_mode Sample.config
              Sample.edited Sample.client
              (Sample.args ["hi"] (Some "new") false true) Sample.shell_chat
              [{| role := "user"; content := Sample.initial "hi" false true |}]
              eq_refl) as (C & _ & I & _).
  split; [reflexivity|]. split; [exact C|]. apply I. reflexivity.
Defined.

Lemma no_cache_witness :
  cache (final (Sample.run Sample.uncached Sample.empty)) = ∅ /\
  exists first second,
    wire (final (Sample.run Sample.uncached
                   (final (Sample.run Sample.uncached Sample.empty)))) =
    [Transport first "gpt-3.5-turbo" 1%float 1%float;
     Transport second "gpt-3.5-turbo" 1%float 1%float].
Proof.
  destruct (no_cache_skips_cache Sample.fingerprint Sample.transport
              Sample.initial Sample.chat_mode Sample.config Sample.edited
              Sample.uncached Sample.empty eq_refl) as (C & _ & new & W & _ & T).
  split; [exact C|].
  destruct T as (first & second & ->); [eexists; reflexivity..|].
  exists first, second. exact W.
Defined.

Lemma executes_witness :
  In (OsSystem "ls -la")
    (events (Sample.run (Sample.args ["list"; "files"] None true false) Sample.empty)) /\
  shell (Sample.args ["list"; "files"] None true false) = true /\
  code (Sample.args ["list"; "files"] None true false) = false /\
  demo (Sample.args ["list"; "files"] None true false) = false.
Proof.
  assert (In (OsSystem "ls -la")
    (events (Sample.run (Sample.args ["list"; "files"] None true false) Sample.empty)))
    as H by (vm_compute; auto 20).
  split; [exact H|].
  apply (executes_only_shell_not_demo Sample.initial Sample.chat_mode Sample.config
           Sample.edited Sample.client
           (Sample.args ["list"; "files"] None true false) Sample.empty
           (OsSystem "ls -la") H eq_refl).
Defined.

(** * More about [main] *)

(** ** Python's [join] and [in] *)

Lemma append_nonempty_r (s t : string) : t <> "" -> s +:+ t <> "".
Proof.
  intros Ht. destruct s as [|c s]; [exact Ht|].
  rewrite append_cons. discriminate.
Qed.

(** [" ".join(words)] is empty only for no word or one empty word. *)
Lemma join_empty (ws : list string) :
  Py.truthy (Py.join " " ws) = false <-> ws = [] \/ ws = [""].
Proof.
  unfold Py.truthy. rewrite negb_false_iff, String.eqb_eq.
  destruct ws as [|w [|w' ws]].
  - cbn. intuition.
  - cbn. split; [intros ->; auto | intros [H|[= ->]]; [discriminate H | reflexivity]].
  - change (Py.join " " (w :: w' :: ws))
      with (w +:+ (" " +:+ Py.join " " (w' :: ws))).
    split.
    + intros H. exfalso. revert H. apply append_nonempty_r. discriminate.
    + intros [H|H]; discriminate H.
Qed.

Lemma prefix_split (needle s : string) :
  String.prefix needle s = true -> exists post, s = needle +:+ post.
Proof.
  revert s. induction needle as [|c n IH]; intros s H.
  - exists s. reflexivity.
  - destruct s as [|d s]; [discriminate H|].
    cbn [String.prefix] in H.
    destruct (Ascii.ascii_dec c d) as [->|]; [|discriminate H].
    destruct (IH s H) as [post ->]. exists post. reflexivity.
Qed.

Lemma prefix_append (needle post : string) :
  String.prefix needle (needle +:+ post) = true.
Proof.
  induction needle as [|c n IH]; [destruct post; reflexivity|].
  rewrite append_cons. cbn [String.prefix].
  destruct (Ascii.ascii_dec c c) as [_|N]; [exact IH | destruct N; reflexivity].
Qed.

(** [needle in s] holds exactly when [s] has [needle] somewhere inside. *)
Lemma contains_inside (s needle : string) :
  Py.contains s needle = true <-> exists pre post, s = pre +:+ needle +:+ post.
Proof.
  split.
  - induction s as [|c s IH]; cbn [Py.contains]; intros H;
      apply orb_true_iff in H as [H|H].
    + destruct (prefix_split _ _ H) as [post ->]. exists "", post. reflexivity.
    + discriminate H.
    + destruct (prefix_split _ _ H) as [post ->]. exists "", post. reflexivity.
    + destruct (IH H) as (pre & post & ->). exists (String c pre), post. reflexivity.
  - intros (pre & post & ->). induction pre as [|c pre IH].
    + change ("" +:+ needle +:+ post) with (needle +:+ post).
      destruct (needle +:+ post) eqn:E; cbn [Py.contains];
        rewrite <- E, prefix_append; reflexivity.
    + rewrite append_cons. cbn [Py.contains]. rewrite IH. apply orb_true_r.
Qed.

(** ** Every run of [main] in one equation *)

Section MoreAppFacts.

Variable make_prompt_initial : string -> bool -> bool -> string.
Variable make_prompt_chat_mode : string -> bool -> bool -> string.
Variable config_get : string -> string.
Variable edited_prompt : string.
Variable client_get_completion : Client.

Local Abbreviation run :=
  (main make_prompt_initial make_prompt_chat_mode config_get edited_prompt
     client_get_completion).
Local Abbreviation raw := (raw_prompt edited_prompt).
Local Abbreviation stream := (started config_get client_get_completion).
Local Abbreviation text :=
  (composed_text make_prompt_initial make_prompt_chat_mode edited_prompt).
Local Abbreviation before := (prelude edited_prompt).
Local Abbreviation reached a b := (asks_completion a && negb (refused a b)).

Lemma run_reached (a : Args) (b : Backend) :
  reached a b = true ->
  run a b =
  MkRun (before a b ++ client_part a (text a b) (stream a (text a b) b))
    (last_backend (stream a (text a b) b))
    match failure (stream a (text a b) b) with
    | None => Val tt
    | Some detail => Exc (UpstreamError detail)
    end.
Proof.
  intros H. apply andb_true_iff in H as [Ha Hr]. apply negb_true_iff in Hr.
  rewrite (main_accepted _ _ _ _ _ a b Ha Hr), finish_run. reflexivity.
Qed.

Lemma run_unreached (a : Args) (b : Backend) :
  reached a b = false ->
  final (run a b) = b /\
  existsb is_client_call (events (run a b)) = false /\
  existsb is_config_read (events (run a b)) = false /\
  existsb is_execution (events (run a b)) = false.
Proof.
  destruct (asks_completion a) eqn:Ha.
  - destruct (refused a b) eqn:Hr; [|discriminate]. intros _.
    rewrite (main_refused _ _ _ _ _ a b Ha Hr). cbn [final events].
    split; [reflexivity|]. unfold prelude. rewrite Hr.
    destruct (editor a), (Py.given (chat a)), (follows_up a b);
      repeat split; reflexivity.
  - intros _. rewrite main_blocks. unfold asks_completion in Ha.
    destruct (list_chat a); [repeat split; reflexivity|].
    destruct (Py.given (show_chat a)); [repeat split; reflexivity|].
    cbn in Ha. apply orb_false_iff in Ha as [-> ->]. repeat split; reflexivity.
Qed.

Lemma before_no_config (a : Args) (b : Backend) :
  existsb is_config_read (before a b) = false.
Proof.
  unfold prelude.
  destruct (editor a), (Py.given (chat a)), (follows_up a b), (refused a b);
    reflexivity.
Qed.

Lemma filter_none {A} (P : A -> bool) (l : list A) :
  existsb P l = false -> List.filter P l = [].
Proof.
  induction l as [|x l IH]; [reflexivity|].
  cbn. destruct (P x); [discriminate|]. exact IH.
Qed.


(** ** Reporting paths, missing prompt, editor *)

(** X1: with [--list-chat], or else with [--show-chat], [main] makes the
    one reporting call and returns: whatever else is on the command line,
    no prompt is required, nothing is composed, the client is not called
    and the backend is as it was.  [--list-chat] wins over [--show-chat]. *)
Theorem reporting_paths_only_report (a : Args) (b : Backend) :
  list_chat a = true \/ Py.given (show_chat a) = true ->
  run a b =
  MkRun [if list_chat a then EchoChatIds
         else EchoChatMessages (default "" (show_chat a))] b (Val tt).
Proof.
  intros H. rewrite main_blocks.
  destruct (list_chat a); [reflexivity|].
  destruct H as [H|H]; [discriminate H|]. rewrite H. reflexivity.
Qed.

(** X2: outside the reporting paths, [main] ends in [MissingParameter]
    exactly when the editor flag is off and the prompt words are none at
    all or a single empty word; two empty words already make the prompt
    [" "], which is sent on. *)
Theorem missing_parameter_exactly (a : Args) (b : Backend) :
  list_chat a = false -> Py.given (show_chat a) = false ->
  (result (run a b) = Exc (MissingParameter "PROMPT" "string") <->
   editor a = false /\ (prompt a = [] \/ prompt a = [""])).
Proof.
  intros Hl Hs. rewrite <- join_empty.
  destruct (asks_completion a) eqn:Ha.
  - assert (~ (editor a = false /\ Py.truthy (Py.join " " (prompt a)) = false)) as N.
    { unfold asks_completion in Ha. rewrite Hl, Hs in Ha. cbn in Ha.
      intros [E T]. rewrite E, T in Ha. discriminate Ha. }
    split; [|intros H; destruct (N H)].
    destruct (refused a b) eqn:Hr.
    + rewrite (main_refused _ _ _ _ _ a b Ha Hr). discriminate.
    + rewrite run_reached by (rewrite Ha, Hr; reflexivity). cbn [result].
      destruct (failure _); discriminate.
  - unfold asks_completion in Ha. rewrite Hl, Hs in Ha. cbn in Ha.
    apply orb_false_iff in Ha as [T E].
    rewrite main_blocks, Hl, Hs, T, E. cbn. tauto.
Qed.

(** X3: with [--editor] the words typed on the command line play no part:
    the run is the same for any other words. *)
Theorem editor_replaces_typed_prompt (a : Args) (ws : list string) (b : Backend) :
  editor a = true -> run (with_prompt a ws) b = run a b.
Proof.
  intros E. rewrite !main_blocks.
  change (list_chat (with_prompt a ws)) with (list_chat a).
  change (show_chat (with_prompt a ws)) with (show_chat a).
  change (editor (with_prompt a ws)) with (editor a).
  destruct (list_chat a); [reflexivity|].
  destruct (Py.given (show_chat a)); [reflexivity|].
  rewrite E, !andb_false_r.
  unfold bind, collected_prompt.
  change (editor (with_prompt a ws)) with (editor a). rewrite E.
  reflexivity.
Qed.

(** ** What happens around the client call *)

Lemma client_part_filters (a : Args) (p : string) (s : Stream) :
  List.filter is_client_call (client_part a p s) =
    [ClientGetCompletion [{| role := "user"; content := p |}] "gpt-3.5-turbo"
       (temperature a) (top_probability a) (negb (no_cache a)) (chat a)] /\
  List.filter is_config_read (client_part a p s) =
    [ConfigGet "OPENAI_API_HOST"; ConfigGet "OPENAI_API_KEY"] /\
  List.filter is_chat_cache_read (client_part a p s) = [].
Proof.
  unfold client_part. rewrite !List.filter_app.
  rewrite !(filter_none _ (concat _)) by (apply existsb_forwarded; reflexivity).
  unfold execution.
  destruct (failure s), (negb (code a) && shell a), (negb (demo a)),
    (Py.contains p "only PowerShell commands"); repeat split; reflexivity.
Qed.

(** X4: if the iterator raises while it is drained, the exception leaves
    [main]; the chunks received so far were printed, but the closing
    newline is not, and nothing is executed. *)
Theorem upstream_failure_stops_run (a : Args) (b : Backend) (detail : string) :
  asks_completion a && negb (refused a b) = true ->
  failure (stream a (text a b) b) = Some detail ->
  result (run a b) = Exc (UpstreamError detail) /\
  events (run a b) =
    before a b ++
    [ConfigGet "OPENAI_API_HOST"; ConfigGet "OPENAI_API_KEY";
     ClientGetCompletion [{| role := "user"; content := text a b |}] "gpt-3.5-turbo"
       (temperature a) (top_probability a) (negb (no_cache a)) (chat a)] ++
    concat (map forwarded (words (stream a (text a b) b))) /\
  existsb is_execution (events (run a b)) = false.
Proof.
  intros H F. rewrite (run_reached a b H). cbn [result events].
  unfold client_part. rewrite F, app_nil_r.
  split; [reflexivity|]. split; [reflexivity|].
  rewrite !existsb_app, existsb_forwarded by reflexivity.
  destruct (before_quiet edited_prompt a b) as (_ & -> & _). reflexivity.
Qed.

Lemma run_executes (a : Args) (b : Backend) :
  asks_completion a && negb (refused a b) = true ->
  failure (stream a (text a b) b) = None ->
  shell a = true -> code a = false -> demo a = false ->
  exists pre,
    existsb is_execution pre = false /\
    events (run a b) =
      pre ++
      [Secho None true;
       if Py.contains (text a b) "only PowerShell commands"
       then SubprocessRun ["powershell"; "-Command";
              foldr String.append "" (words (stream a (text a b) b))]
       else OsSystem (foldr String.append "" (words (stream a (text a b) b)))].
Proof.
  intros H F Hs Hc Hd. rewrite (run_reached a b H). cbn [events].
  unfold client_part, execution. rewrite F, Hs, Hc, Hd. cbn [negb andb].
  eexists. split; [|rewrite !app_assoc; destruct (Py.contains _ _); reflexivity].
  rewrite !existsb_app, existsb_forwarded by reflexivity.
  destruct (before_quiet edited_prompt a b) as (_ & -> & _). reflexivity.
Qed.


(** X6: in such a run the completion goes to PowerShell exactly when the
    composed prompt has the text ["only PowerShell commands"] somewhere
    inside it, with these very letters. *)
Theorem powershell_iff_prompt_says_so (a : Args) (b : Backend) :
  asks_completion a && negb (refused a b) = true ->
  failure (stream a (text a b) b) = None ->
  shell a = true -> code a = false -> demo a = false ->
  (In (SubprocessRun ["powershell"; "-Command";
         foldr String.append "" (words (stream a (text a b) b))])
      (events (run a b)) <->
   exists pre post, text a b = pre +:+ "only PowerShell commands" +:+ post).
Proof.
  intros H F Hs Hc Hd. rewrite <- contains_inside.
  destruct (run_executes a b H F Hs Hc Hd) as (pre & Q & ->).
  split.
  - intros Hin. apply in_app_or in Hin as [Hin|Hin].
    + assert (existsb is_execution pre = true) as E
        by (apply existsb_exists; eexists; split; [exact Hin|reflexivity]).
      congruence.
    + destruct (Py.contains _ _); [reflexivity|].
      destruct Hin as [X|[X|[]]]; discriminate X.
  - intros ->. apply in_or_app. right. right. left. reflexivity.
Qed.

(** X7: a run of [main] calls the client at most once, and then always
    for the model ["gpt-3.5-turbo"], with the temperature and the top
    probability of the command line, caching on unless [--no-cache] is
    set, the chat id as given, and the composed prompt as a single [user]
    message. *)
Theorem one_client_call (a : Args) (b : Backend) :
  List.filter is_client_call (events (run a b)) =
  if asks_completion a && negb (refused a b)
  then [ClientGetCompletion [{| role := "user"; content := text a b |}] "gpt-3.5-turbo"
          (temperature a) (top_probability a) (negb (no_cache a)) (chat a)]
  else [].
Proof.
  destruct (reached a b) eqn:H.
  - rewrite (run_reached a b H). cbn [events]. rewrite List.filter_app.
    rewrite (filter_none _ (before a b)) by apply before_quiet.
    apply client_part_filters.
  - apply filter_none, (run_unreached a b H).
Qed.

(** X8: the configuration is read only by a run that goes on to call the
    client, and then the host is read first and the key second; reporting
    paths, a missing prompt and a refused follow-up read no credentials. *)
Theorem config_read_when_client_called (a : Args) (b : Backend) :
  List.filter is_config_read (events (run a b)) =
  if asks_completion a && negb (refused a b)
  then [ConfigGet "OPENAI_API_HOST"; ConfigGet "OPENAI_API_KEY"]
  else [].
Proof.
  destruct (reached a b) eqn:H.
  - rewrite (run_reached a b H). cbn [events]. rewrite List.filter_app.
    rewrite (filter_none _ (before a b)) by apply before_no_config.
    apply client_part_filters.
  - apply filter_none, (run_unreached a b H).
Qed.

(** X9: [main] itself never writes to the sessions or the cache: after a
    run the backend is what the client's iterator left behind, and it is
    untouched when the client was not called. *)
Theorem backend_changes_only_through_client (a : Args) (b : Backend) :
  final (run a b) =
  if asks_completion a && negb (refused a b)
  then last_backend (stream a (text a b) b)
  else b.
Proof.
  destruct (reached a b) eqn:H.
  - rewrite (run_reached a b H). reflexivity.
  - apply (run_unreached a b H).
Qed.


(** X11: the [BadParameter] of a refused follow-up names the chat id and
    the only grammar the session can be used with: [--shell] for a shell
    session, [--code] for a code session. *)
Theorem conflict_names_chat_and_mode (a : Args) (b : Backend) (id : string) (m : Mode) :
  asks_completion a = true ->
  chat a = Some id -> Py.truthy id = true ->
  infer_mode id b = Some m ->
  rejected m (shell a) (code a) = true ->
  result (run a b) =
  Exc (BadParameter
         ("Chat id:" +:+ id +:+
          (if is_shell_mode m
           then " was initiated as shell assistant, can be used with --shell only"
           else " was initiated as code assistant, can be used with --code only"))).
Proof.
  intros Ha Hc Hid Hi Hr.
  destruct (followed a b id m Hc Hid Hi) as (_ & S & R). rewrite Hr in R.
  rewrite (main_refused _ _ _ _ _ a b Ha R). cbn [result].
  rewrite S, Hc. reflexivity.
Qed.


(** X13: a bare invocation, prompt words and nothing else, composes the
    initial prompt in plain grammar, never looks at the chat cache, calls
    the client once with caching on, temperature and top probability
    [1.0] and no chat id, prints the chunks and the closing newline, and
    executes nothing. *)
Theorem bare_invocation (ws : list string) (b : Backend) :
  Py.truthy (Py.join " " ws) = true ->
  events (run (click_defaults ws) b) =
    [MakePromptInitial (Py.join " " ws) false false;
     ConfigGet "OPENAI_API_HOST"; ConfigGet "OPENAI_API_KEY";
     ClientGetCompletion
       [{| role := "user";
           content := make_prompt_initial (Py.join " " ws) false false |}]
       "gpt-3.5-turbo" 1%float 1%float true None] ++
    concat (map forwarded
      (words (client_get_completion
                (config_get "OPENAI_API_HOST") (config_get "OPENAI_API_KEY")
                [{| role := "user";
                    content := make_prompt_initial (Py.join " " ws) false false |}]
                "gpt-3.5-turbo" 1%float 1%float true None b))) ++
    match failure (client_get_completion
                (config_get "OPENAI_API_HOST") (config_get "OPENAI_API_KEY")
                [{| role := "user";
                    content := make_prompt_initial (Py.join " " ws) false false |}]
                "gpt-3.5-turbo" 1%float 1%float true None b) with
    | None => [Secho None true]
    | Some _ => []
    end.
Proof.
  intros T.
  assert (reached (click_defaults ws) b = true) as H.
  { unfold asks_completion, refused, follows_up.
    cbn [click_defaults list_chat show_chat prompt editor chat Py.given negb andb].
    rewrite T. reflexivity. }
  rewrite (run_reached _ b H). reflexivity.
Qed.

End MoreAppFacts.

(** ** These facts at concrete runs *)

Lemma reporting_witness :
  Sample.run listing Sample.shell_chat = MkRun [EchoChatIds] Sample.shell_chat (Val tt).
Proof.
  apply (reporting_paths_only_report Sample.initial Sample.chat_mode Sample.config
           Sample.edited Sample.client listing Sample.shell_chat).
  left. reflexivity.
Defined.

Lemma missing_parameter_witness :
  result (Sample.run (Sample.args [""] None false false) Sample.empty) =
  Exc (MissingParameter "PROMPT" "string").
Proof.
  apply (missing_parameter_exactly Sample.initial Sample.chat_mode Sample.config
           Sample.edited Sample.client (Sample.args [""] None false false)
           Sample.empty eq_refl eq_refl).
  split; [reflexivity | right; reflexivity].
Defined.

Lemma editor_witness :
  Sample.run (with_prompt editing ["other"]) Sample.empty =
  Sample.run editing Sample.empty.
Proof.
  apply (editor_replaces_typed_prompt Sample.initial Sample.chat_mode Sample.config
           Sample.edited Sample.client editing ["other"] Sample.empty).
  reflexivity.
Defined.

Lemma upstream_failure_witness :
  result (main Sample.initial Sample.chat_mode Sample.config Sample.edited
            broken_client (Sample.args ["list"; "files"] None true false)
            Sample.empty) = Exc (UpstreamError "connection reset") /\
  existsb is_execution
    (events (main Sample.initial Sample.chat_mode Sample.config Sample.edited
               broken_client (Sample.args ["list"; "files"] None true false)
               Sample.empty)) = false.
Proof.
  destruct (upstream_failure_stops_run Sample.initial Sample.chat_mode Sample.config
              Sample.edited broken_client
              (Sample.args ["list"; "files"] None true false) Sample.empty
              "connection reset" eq_refl eq_refl) as (R & _ & E).
  split; [exact R | exact E].
Defined.


Lemma powershell_witness :
  In (SubprocessRun ["powershell"; "-Command"; "ls -la"])
    (events (main powershell_initial Sample.chat_mode Sample.config Sample.edited
               Sample.client (Sample.args ["list"; "files"] None true false)
               Sample.empty)).
Proof.
  apply (powershell_iff_prompt_says_so powershell_initial Sample.chat_mode Sample.config
           Sample.edited Sample.client
           (Sample.args ["list"; "files"] None true false) Sample.empty);
    try reflexivity.
  exists "Provide ", " for: list files". reflexivity.
Defined.

Lemma conflict_text_witness :
  result (Sample.run (Sample.args ["in"; "python"] (Some "abc") false true)
            Sample.shell_chat) =
  Exc (BadParameter
         "Chat id:abc was initiated as shell assistant, can be used with --shell only").
Proof.
  apply (conflict_names_chat_and_mode Sample.initial Sample.chat_mode Sample.config
           Sample.edited Sample.client
           (Sample.args ["in"; "python"] (Some "abc") false true)
           Sample.shell_chat "abc" ShellMode); reflexivity.
Defined.

Lemma bare_invocation_witness :
  events (main Sample.initial Sample.chat_mode Sample.config Sample.edited
            Sample.client (click_defaults ["hello"]) Sample.empty) =
  [MakePromptInitial "hello" false false;
   ConfigGet "OPENAI_API_HOST"; ConfigGet "OPENAI_API_KEY";
   ClientGetCompletion [{| role := "user"; content := "hello" |}]
     "gpt-3.5-turbo" 1%float 1%float true None;
   Next "ls"; Secho (Some "ls") false; Next " -la"; Secho (Some " -la") false;
   Secho None true].
Proof.
  rewrite (bare_invocation Sample.initial Sample.chat_mode Sample.config
             Sample.edited Sample.client ["hello"] Sample.empty eq_refl).
  reflexivity.
Defined.
